(** * The coc.nvim workspace orchestrator ([src/workspace.ts])

    A shallow embedding of the [Workspace] class: its constructor, the
    [init] handshake, the deprecated-method shim, the path computations of
    the constructor and of [createDatabase], the [root]/[rootPath] getters
    and [dispose].

    Calls that leave the class (collaborator methods, the logger, the
    editor connection, the file system) are recorded in a trace, in the
    order in which the code makes them.  What such a call answers is not
    decided by this file: it is read from a [Host], so every theorem holds
    for every behaviour of the collaborators. *)

From Stdlib Require Import ZArith List Lia Ascii String.
From stdpp Require Import base option list strings gmap pretty.

Local Open Scope Z_scope.

(** ** Strings, the way the code uses them *)

Module Str.

Definition newline : string := String (ascii_of_nat 10) EmptyString.

(** [s.split(sep)] for a one-character separator: the pieces between the
    separators; a string without separator (also the empty one) is one
    piece. *)
Fixpoint split (sep : ascii) (s : string) : list string :=
  match s with
  | EmptyString => [EmptyString]
  | String c rest =>
      if Ascii.eqb c sep then EmptyString :: split sep rest
      else match split sep rest with
           | [] => [String c EmptyString]
           | piece :: pieces => String c piece :: pieces
           end
  end.

(** [pieces.join(sep)]. *)
Fixpoint join (sep : string) (pieces : list string) : string :=
  match pieces with
  | [] => EmptyString
  | [piece] => piece
  | piece :: more => piece +:+ sep +:+ join sep more
  end.

(** [xs.slice(from, to)] for [0 <= from], [0 <= to]. *)
Definition slice {A} (from to : nat) (xs : list A) : list A :=
  take (to - from) (drop from xs).

(** No character of [s] is [c]. *)
Fixpoint lacks (c : ascii) (s : string) : bool :=
  match s with
  | EmptyString => true
  | String d rest => negb (Ascii.eqb d c) && lacks c rest
  end.

(** [hay.includes(needle)]. *)
Fixpoint includes (needle hay : string) : bool :=
  String.prefix needle hay ||
  match hay with
  | EmptyString => false
  | String _ rest => includes needle rest
  end.

(** JavaScript truthiness of a string: only the empty one is falsy. *)
Definition truthy (s : string) : bool :=
  match s with EmptyString => false | _ => true end.

End Str.

(** ** Node's [path] module, POSIX flavour

    [path.normalize], [path.join] and [path.dirname] are Node built-ins, not
    code of the repository; they are written out after Node's documented
    behaviour so that the paths of the constructor and of [createDatabase]
    can be computed. *)

Module Path.

Definition sep : ascii := "/"%char.

Definition is_absolute (p : string) : bool :=
  match p with String c _ => Ascii.eqb c sep | EmptyString => false end.

Definition ends_with_sep (p : string) : bool :=
  match rev (list_ascii_of_string p) with
  | c :: _ => Ascii.eqb c sep
  | [] => false
  end.

(** One segment pushed on the segments kept so far (most recent first):
    empty and [.] segments vanish, [..] removes the previous segment, or
    stays when there is none to remove and the path is relative. *)
Definition push_segment (allow_above_root : bool)
    (kept : list string) (seg : string) : list string :=
  if String.eqb seg "" || String.eqb seg "." then kept
  else if String.eqb seg ".." then
    match kept with
    | top :: below =>
        if String.eqb top ".." then
          (if allow_above_root then seg :: kept else kept)
        else below
    | [] => if allow_above_root then [seg] else []
    end
  else seg :: kept.

Definition normalize_string (p : string) (allow_above_root : bool) : string :=
  Str.join "/"
    (rev (fold_left (push_segment allow_above_root) (Str.split sep p) [])).

(** [path.normalize(p)] for a string [p]. *)
Definition normalize (p : string) : string :=
  match p with
  | EmptyString => "."
  | _ =>
      let absolute := is_absolute p in
      let trailing := ends_with_sep p in
      let body := normalize_string p (negb absolute) in
      match body with
      | EmptyString =>
          if absolute then "/" else if trailing then "./" else "."
      | _ =>
          let body := if trailing then body +:+ "/" else body in
          if absolute then "/" +:+ body else body
      end
  end.

(** [path.join(...parts)]: the non-empty parts glued with [/], then
    normalized; [.] when nothing is left. *)
Definition join (parts : list string) : string :=
  match filter (fun s => Str.truthy s = true) parts with
  | [] => "."
  | kept => normalize (Str.join "/" kept)
  end.

Fixpoint drop_while {A} (f : A -> bool) (xs : list A) : list A :=
  match xs with
  | [] => []
  | x :: rest => if f x then drop_while f rest else xs
  end.

(** [path.dirname(p)]: trailing separators and the last segment are cut
    off, scanning from the end down to index 1. *)
Definition dirname (p : string) : string :=
  match list_ascii_of_string p with
  | [] => "."
  | first :: others =>
      let has_root := Ascii.eqb first sep in
      let back := drop_while (fun c => Ascii.eqb c sep) (rev others) in
      match drop_while (fun c => negb (Ascii.eqb c sep)) back with
      | [] => if has_root then "/" else "."
      | _ :: before =>
          match before with
          | [] => if has_root then "//"
                  else string_of_list_ascii [first]
          | _ => string_of_list_ascii (first :: rev before)
          end
      end
  end.

End Path.

(** ** Data of the editor handshake *)

Set Warnings "-register-all".

(** A JSON payload, as the configuration of the environment snapshot and the
    arguments of the forwarded [window] methods are. *)
Inductive Json :=
| JNull
| JBool (b : bool)
| JNum (n : Z)
| JStr (s : string)
| JArr (items : list Json)
| JObj (fields : list (string * Json)).

Record WorkspaceFolder := { uri : string; name : string }.

(** The fields of [Env] that [workspace.ts] reads. *)
Record Env := {
  apiversion : Z;
  isVim : bool;
  floating : bool;
  textprop : bool;
  completeOpt : string;
  workspaceFolders : list WorkspaceFolder;
  config : Json;
  extensionRoot : string
}.

Definition APIVERSION : Z := 17.

Definition methods : list string := [
  "showMessage"; "runTerminalCommand"; "openTerminal"; "showQuickpick";
  "menuPick"; "openLocalConfig"; "showPrompt"; "createStatusBarItem"; "createOutputChannel";
  "showOutputChannel"; "requestInput"; "echoLines"; "getCursorPosition"; "moveTo";
  "getOffset"; "getSelectedRange"; "selectRange"
].

(** ** Calls that leave the class *)

(** The [window] object handed to [init], known by its identity. *)
Definition WindowRef := positive.

Inductive Receiver :=
| Nvim | Logger | Window (ref : WindowRef) | Fs
| WorkspaceFolderControl | ConfigurationStore | DocumentsManager
| ContentProviderSvc | WatchersSvc | AutocmdsSvc | KeymapsSvc | LocationsSvc
| FilesSvc.

Inductive Value :=
| VUndefined
| VNvim
| VStr (s : string)
| VJson (j : Json)
| VFolders (folders : list WorkspaceFolder)
| VEnv (e : Env).

Record Call := { receiver : Receiver; method : string; args : list Value }.

Definition call (r : Receiver) (m : string) (a : list Value) : Call :=
  {| receiver := r; method := m; args := a |}.

Inductive Exn :=
| TypeError (what : string)
| Raised (by_call : Call) (payload : Json).

Inductive Result (A : Type) :=
| Ok (a : A)
| Throw (e : Exn).
Arguments Ok {A} a.
Arguments Throw {A} e.

(** What the world outside the class answers.  An answer may depend on
    everything that was called before. *)
Record Host := {
  (** reply of the RPC [nvim.call('coc#util#vim_info')] *)
  vim_info : list Call -> Result Env;
  (** a collaborator method returning nothing: [None] when it returns,
      [Some e] when it throws [e] *)
  outcome : list Call -> Call -> option Exn;
  (** [window[method].apply(window, args)] *)
  window_apply : list Call -> WindowRef -> string -> list Json -> Result Json
}.

(** The process the module is loaded in. *)
Record Process := {
  COC_VIMCONFIG : option string;   (* process.env.COC_VIMCONFIG *)
  homedir : string;                (* os.homedir() *)
  tmpdir : string;                 (* os.tmpdir() *)
  pid : Z;                         (* process.pid *)
  has_TEST : bool                  (* global.hasOwnProperty('__TEST__') *)
}.

(** ** Collaborators, as far as the class looks into them *)

(** An event object ([Event<T>]) is known by its identity. *)
Definition EventRef := positive.

Record Configurations := {
  userConfigFile : string;
  onDidChange : EventRef
}.

Record WorkspaceFolderController := {
  wf_configurations : Configurations;
  wf_onDidChangeWorkspaceFolders : EventRef
}.

Record Documents := {
  doc_configurations : Configurations;
  doc_workspaceFolder : WorkspaceFolderController;
  doc_onDidOpenTextDocument : EventRef;
  doc_onDidChangeDocument : EventRef;
  doc_onDidCloseDocument : EventRef;
  doc_onDidSaveTextDocument : EventRef;
  doc_onWillSaveTextDocument : EventRef;
  doc_onDidOpenTerminal : EventRef;
  doc_onDidCloseTerminal : EventRef
}.

Record ContentProvider := { cp_documents : Documents }.

Record Watchers := { w_onDidRuntimePathChange : EventRef }.

Record Autocmds := {
  au_contentProvider : ContentProvider;
  au_watchers : Watchers
}.

Record Keymaps := { km_documents : Documents }.

Record Locations := {
  loc_configurations : Configurations;
  loc_documents : Documents
}.

Record Files := {
  f_documents : Documents;
  f_configurations : Configurations;
  f_onDidCreateFiles : EventRef;
  f_onDidRenameFiles : EventRef;
  f_onDidDeleteFiles : EventRef;
  f_onWillCreateFiles : EventRef;
  f_onWillRenameFiles : EventRef;
  f_onWillDeleteFiles : EventRef
}.

(** The event objects each collaborator creates for itself when it is
    constructed. *)
Record EventObjects := {
  ev_configurations : EventRef;
  ev_workspaceFolders : EventRef;
  ev_open : EventRef;
  ev_change : EventRef;
  ev_close : EventRef;
  ev_save : EventRef;
  ev_willSave : EventRef;
  ev_openTerminal : EventRef;
  ev_closeTerminal : EventRef;
  ev_runtimePath : EventRef;
  ev_didCreate : EventRef;
  ev_didRename : EventRef;
  ev_didDelete : EventRef;
  ev_willCreate : EventRef;
  ev_willRename : EventRef;
  ev_willDelete : EventRef
}.

(** The fields of a [Workspace] object that the constructor assigns. *)
Record Workspace := {
  onDidChangeConfiguration : EventRef;
  onDidOpenTextDocument : EventRef;
  onDidCloseTextDocument : EventRef;
  onDidChangeTextDocument : EventRef;
  onDidSaveTextDocument : EventRef;
  onWillSaveTextDocument : EventRef;
  onDidChangeWorkspaceFolders : EventRef;
  onDidCloseTerminal : EventRef;
  onDidOpenTerminal : EventRef;
  onDidRuntimePathChange : EventRef;
  onDidCreateFiles : EventRef;
  onDidRenameFiles : EventRef;
  onDidDeleteFiles : EventRef;
  onWillCreateFiles : EventRef;
  onWillRenameFiles : EventRef;
  onWillDeleteFiles : EventRef;
  version : string;
  configurations : Configurations;
  workspaceFolderControl : WorkspaceFolderController;
  documentsManager : Documents;
  contentProvider : ContentProvider;
  autocmds : Autocmds;
  watchers : Watchers;
  keymaps : Keymaps;
  locations : Locations;
  files : Files
}.

(** ** The state the methods run in *)

(** What the getters of [documentsManager] answer at the moment. *)
Record DocumentsView := { docs_root : string; docs_cwd : string }.

Record World := {
  trace : list Call;                 (* calls made so far, oldest first *)
  _env : option Env;                 (* this._env, undefined before init *)
  accessors : gmap string WindowRef; (* accessor properties defined on
                                        [this]: name and captured window *)
  docs : DocumentsView
}.

Definition record_call (c : Call) (w : World) : World :=
  {| trace := trace w ++ [c]; _env := _env w;
     accessors := accessors w; docs := docs w |}.

Definition M (A : Type) : Type := World -> Result A * World.

Definition ret {A} (a : A) : M A := fun w => (Ok a, w).

Definition bind {A B} (m : M A) (k : A -> M B) : M B :=
  fun w =>
    match m w with
    | (Ok a, w') => k a w'
    | (Throw e, w') => (Throw e, w')
    end.

Declare Scope js_scope.
Delimit Scope js_scope with js.
Notation "x <- m ;; k" := (bind m (fun x => k))
  (at level 100, m at next level, right associativity) : js_scope.
Notation "m ;; k" := (bind m (fun _ => k))
  (at level 100, right associativity) : js_scope.
Local Open Scope js_scope.

(** [for (let x of xs) body(x)] *)
Fixpoint for_of {A} (xs : list A) (body : A -> M unit) : M unit :=
  match xs with
  | [] => ret tt
  | x :: rest => body x ;; for_of rest body
  end.

Section Orchestrator.

Variable host : Host.
Variable VERSION : string.            (* version of ../package.json *)
Variable CONFIG_FILE_NAME : string.   (* from ./util/index *)

(** A collaborator method that returns nothing: the call is made, and it
    returns or throws as the host says. *)
Definition perform (c : Call) : M unit :=
  fun w =>
    match outcome host (trace w) c with
    | None => (Ok tt, record_call c w)
    | Some e => (Throw e, record_call c w)
    end.

(** [logger.warn] and [nvim.echoError] hand a line over and return. *)
Definition emit (c : Call) : M unit :=
  fun w => (Ok tt, record_call c w).

(** [this._env], and the TypeError of reading a field of [undefined]. *)
Definition this_env (field : string) : M Env :=
  fun w =>
    match _env w with
    | Some e => (Ok e, w)
    | None =>
        (Throw (TypeError ("Cannot read properties of undefined (reading '"
                           +:+ field +:+ "')")), w)
    end.

Definition set_env (e : Env) : M unit :=
  fun w => (Ok tt, {| trace := trace w; _env := Some e;
                      accessors := accessors w; docs := docs w |}).

(** [Object.defineProperty(this, method, { get })]: the property is not
    configurable, so defining it a second time is a TypeError. *)
Definition defineProperty (m : string) (window : WindowRef) : M unit :=
  fun w =>
    match accessors w !! m with
    | Some _ => (Throw (TypeError ("Cannot redefine property: " +:+ m)), w)
    | None =>
        (Ok tt, {| trace := trace w; _env := _env w;
                   accessors := <[m := window]> (accessors w);
                   docs := docs w |})
    end.

(** [await nvim.call('coc#util#vim_info')] *)
Definition nvim_call_vim_info : M Env :=
  fun w =>
    let c := call Nvim "call" [VStr "coc#util#vim_info"] in
    match vim_info host (trace w) with
    | Ok e => (Ok e, record_call c w)
    | Throw x => (Throw x, record_call c w)
    end.

Definition version_message (reported : Z) : string :=
  "API version " +:+ pretty reported +:+ " is not " +:+ pretty APIVERSION
  +:+ ", please build coc.nvim by 'yarn install' after pull source code.".

Definition attach : M unit :=
  fun w =>
    perform (call DocumentsManager "attach"
               [VNvim; match _env w with Some e => VEnv e | None => VUndefined end]) w.

Definition init (window : WindowRef) : M unit :=
  for_of methods (fun m => defineProperty m window) ;;
  env <- nvim_call_vim_info ;;
  set_env env ;;
  e <- this_env "apiversion" ;;
  (if negb (apiversion e =? APIVERSION)
   then emit (call Nvim "echoError" [VStr (version_message (apiversion e))])
   else ret tt) ;;
  e <- this_env "workspaceFolders" ;;
  perform (call WorkspaceFolderControl "setWorkspaceFolders"
             [VFolders (workspaceFolders e)]) ;;
  e <- this_env "config" ;;
  perform (call ConfigurationStore "updateUserConfig" [VJson (config e)]) ;;
  perform (call FilesSvc "attach" [VNvim; VEnv env]) ;;
  perform (call ContentProviderSvc "attach" [VNvim]) ;;
  perform (call KeymapsSvc "attach" [VNvim]) ;;
  perform (call AutocmdsSvc "attach" [VNvim; VEnv env]) ;;
  perform (call LocationsSvc "attach" [VNvim; VEnv env]) ;;
  perform (call WatchersSvc "attach" [VNvim; VEnv env]) ;;
  attach.

Definition dispose : M unit :=
  perform (call WatchersSvc "dispose" []) ;;
  perform (call AutocmdsSvc "dispose" []) ;;
  perform (call ContentProviderSvc "dispose" []) ;;
  perform (call DocumentsManager "dispose" []) ;;
  perform (call ConfigurationStore "dispose" []).

(** *** The deprecated-method shim *)

(** The function a getter returns: it remembers the method name and the
    window of the [init] that defined it. *)
Record Forwarder := { fw_method : string; fw_window : WindowRef }.

(** Reading [workspace[name]] for a name that the class neither declares
    nor assigns, as the deprecated names are (fields such as [_env] and the
    getters of the class are not read through this): the getter runs when
    [init] defined the property, and nothing else happens. *)
Definition read_accessor (name : string) : M (option Forwarder) :=
  fun w =>
    (Ok (match accessors w !! name with
         | Some window => Some {| fw_method := name; fw_window := window |}
         | None => None
         end), w).

Definition stack_excerpt (error_stack : string) : string :=
  Str.newline +:+
  Str.join Str.newline
    (Str.slice 2 4 (Str.split (ascii_of_nat 10) error_stack)).

Definition deprecation_message (m : string) : string :=
  "workspace." +:+ m +:+ " is deprecated, please use window." +:+ m
  +:+ " instead.".

(** Calling the forwarding function with [args]; [error_stack] is the
    text [Error().stack] has at that call. *)
Definition invoke (f : Forwarder) (error_stack : string)
    (args : list Json) : M Json :=
  let stack := stack_excerpt error_stack in
  emit (call Logger "warn"
          [VStr (deprecation_message (fw_method f)); VStr stack]) ;;
  fun w =>
    (window_apply host (trace w) (fw_window f) (fw_method f) args,
     record_call (call (Window (fw_window f)) (fw_method f)
                    (map VJson args)) w).

(** *** Getters *)

Definition cwd : M string :=
  fun w => (Ok (docs_cwd (docs w)), w).

(** [this.documentsManager.root || this.cwd] *)
Definition root : M string :=
  fun w =>
    let r := docs_root (docs w) in
    if Str.truthy r then (Ok r, w) else cwd w.

Definition rootPath : M string := root.

(** *** createDatabase *)

(** [new DB(filepath)] keeps the path of its backing file. *)
Record DB := { filepath : string }.

Definition createDatabase (p : Process) (name : string) : M DB :=
  root <-
    (if has_TEST p then
       let root := Path.join [tmpdir p; "coc-" +:+ pretty (pid p)] in
       perform (call Fs "mkdirpSync" [VStr root]) ;;
       ret root
     else
       e <- this_env "extensionRoot" ;;
       ret (Path.dirname (extensionRoot e))) ;;
  let filepath := Path.join [root; name +:+ ".json"] in
  ret {| filepath := filepath |}.

(** *** The constructor *)

(** [path.normalize(x)] for [x = process.env.COC_VIMCONFIG], which is a
    string or [undefined].  Node validates the argument: "A TypeError is
    thrown if path is not a string." *)
Definition normalize_env_value (x : option string) : Result string :=
  match x with
  | Some s => Ok (Path.normalize s)
  | None =>
      Throw (TypeError
        "The 'path' argument must be of type string. Received undefined")
  end.

(** The collaborators are built from their constructor arguments and own
    the event objects listed in [ev]. *)
Definition constructor (p : Process) (ev : EventObjects) : Result Workspace :=
  match normalize_env_value (COC_VIMCONFIG p) with
  | Throw e => Throw e
  | Ok normalized =>
      let home :=
        if Str.truthy normalized then normalized
        else Path.join [homedir p; ".vim"] in
      let userConfigFile := Path.join [home; CONFIG_FILE_NAME] in
      let configurations :=
        {| userConfigFile := userConfigFile;
           onDidChange := ev_configurations ev |} in
      let workspaceFolderControl :=
        {| wf_configurations := configurations;
           wf_onDidChangeWorkspaceFolders := ev_workspaceFolders ev |} in
      let documents :=
        {| doc_configurations := configurations;
           doc_workspaceFolder := workspaceFolderControl;
           doc_onDidOpenTextDocument := ev_open ev;
           doc_onDidChangeDocument := ev_change ev;
           doc_onDidCloseDocument := ev_close ev;
           doc_onDidSaveTextDocument := ev_save ev;
           doc_onWillSaveTextDocument := ev_willSave ev;
           doc_onDidOpenTerminal := ev_openTerminal ev;
           doc_onDidCloseTerminal := ev_closeTerminal ev |} in
      let contentProvider := {| cp_documents := documents |} in
      let watchers := {| w_onDidRuntimePathChange := ev_runtimePath ev |} in
      let autocmds :=
        {| au_contentProvider := contentProvider; au_watchers := watchers |} in
      let keymaps := {| km_documents := documents |} in
      let locations :=
        {| loc_configurations := configurations;
           loc_documents := documents |} in
      let files :=
        {| f_documents := documents;
           f_configurations := configurations;
           f_onDidCreateFiles := ev_didCreate ev;
           f_onDidRenameFiles := ev_didRename ev;
           f_onDidDeleteFiles := ev_didDelete ev;
           f_onWillCreateFiles := ev_willCreate ev;
           f_onWillRenameFiles := ev_willRename ev;
           f_onWillDeleteFiles := ev_willDelete ev |} in
      Ok {| version := VERSION;
            configurations := configurations;
            workspaceFolderControl := workspaceFolderControl;
            documentsManager := documents;
            contentProvider := contentProvider;
            watchers := watchers;
            autocmds := autocmds;
            keymaps := keymaps;
            locations := locations;
            files := files;
            onDidRuntimePathChange := w_onDidRuntimePathChange watchers;
            onDidChangeWorkspaceFolders :=
              wf_onDidChangeWorkspaceFolders workspaceFolderControl;
            onDidChangeConfiguration := onDidChange configurations;
            onDidOpenTextDocument := doc_onDidOpenTextDocument documents;
            onDidChangeTextDocument := doc_onDidChangeDocument documents;
            onDidCloseTextDocument := doc_onDidCloseDocument documents;
            onDidSaveTextDocument := doc_onDidSaveTextDocument documents;
            onWillSaveTextDocument := doc_onWillSaveTextDocument documents;
            onDidOpenTerminal := doc_onDidOpenTerminal documents;
            onDidCloseTerminal := doc_onDidCloseTerminal documents;
            onDidCreateFiles := f_onDidCreateFiles files;
            onDidRenameFiles := f_onDidRenameFiles files;
            onDidDeleteFiles := f_onDidDeleteFiles files;
            onWillCreateFiles := f_onWillCreateFiles files;
            onWillRenameFiles := f_onWillRenameFiles files;
            onWillDeleteFiles := f_onWillDeleteFiles files |}
  end.

End Orchestrator.

(** ** Events of the facade *)

Module Facade.

(** The sixteen event fields of [Workspace]. *)
Inductive Name :=
| DidChangeConfiguration | DidOpenTextDocument | DidCloseTextDocument
| DidChangeTextDocument | DidSaveTextDocument | WillSaveTextDocument
| DidChangeWorkspaceFolders | DidCloseTerminal | DidOpenTerminal
| DidRuntimePathChange | DidCreateFiles | DidRenameFiles | DidDeleteFiles
| WillCreateFiles | WillRenameFiles | WillDeleteFiles.

(** The event read through the facade: [workspace.onDid...]. *)
Definition on_facade (ws : Workspace) (n : Name) : EventRef :=
  match n with
  | DidChangeConfiguration => onDidChangeConfiguration ws
  | DidOpenTextDocument => onDidOpenTextDocument ws
  | DidCloseTextDocument => onDidCloseTextDocument ws
  | DidChangeTextDocument => onDidChangeTextDocument ws
  | DidSaveTextDocument => onDidSaveTextDocument ws
  | WillSaveTextDocument => onWillSaveTextDocument ws
  | DidChangeWorkspaceFolders => onDidChangeWorkspaceFolders ws
  | DidCloseTerminal => onDidCloseTerminal ws
  | DidOpenTerminal => onDidOpenTerminal ws
  | DidRuntimePathChange => onDidRuntimePathChange ws
  | DidCreateFiles => onDidCreateFiles ws
  | DidRenameFiles => onDidRenameFiles ws
  | DidDeleteFiles => onDidDeleteFiles ws
  | WillCreateFiles => onWillCreateFiles ws
  | WillRenameFiles => onWillRenameFiles ws
  | WillDeleteFiles => onWillDeleteFiles ws
  end.

(** The same event read on the collaborator that owns it. *)
Definition on_owner (ws : Workspace) (n : Name) : EventRef :=
  match n with
  | DidChangeConfiguration => onDidChange (configurations ws)
  | DidOpenTextDocument => doc_onDidOpenTextDocument (documentsManager ws)
  | DidCloseTextDocument => doc_onDidCloseDocument (documentsManager ws)
  | DidChangeTextDocument => doc_onDidChangeDocument (documentsManager ws)
  | DidSaveTextDocument => doc_onDidSaveTextDocument (documentsManager ws)
  | WillSaveTextDocument => doc_onWillSaveTextDocument (documentsManager ws)
  | DidChangeWorkspaceFolders =>
      wf_onDidChangeWorkspaceFolders (workspaceFolderControl ws)
  | DidCloseTerminal => doc_onDidCloseTerminal (documentsManager ws)
  | DidOpenTerminal => doc_onDidOpenTerminal (documentsManager ws)
  | DidRuntimePathChange => w_onDidRuntimePathChange (watchers ws)
  | DidCreateFiles => f_onDidCreateFiles (files ws)
  | DidRenameFiles => f_onDidRenameFiles (files ws)
  | DidDeleteFiles => f_onDidDeleteFiles (files ws)
  | WillCreateFiles => f_onWillCreateFiles (files ws)
  | WillRenameFiles => f_onWillRenameFiles (files ws)
  | WillDeleteFiles => f_onWillDeleteFiles (files ws)
  end.

(** [Event<T>] of the language-server protocol library: subscribing adds
    a listener to the event object, firing hands the payload to the
    listeners of that object in the order in which they subscribed. *)
Definition Listener := positive.

Definition subscribe (e : EventRef) (l : Listener)
    (subs : gmap EventRef (list Listener)) : gmap EventRef (list Listener) :=
  <[e := default [] (subs !! e) ++ [l]]> subs.

Definition fire (subs : gmap EventRef (list Listener))
    (emission : EventRef * Json) : list (Listener * Json) :=
  (fun l => (l, emission.2)) <$> default [] (subs !! emission.1).

(** The payloads a listener receives from a run of emissions, in order. *)
Definition observed (subs : gmap EventRef (list Listener))
    (emissions : list (EventRef * Json)) (l : Listener) : list Json :=
  snd <$> filter (fun d => d.1 = l) (emissions ≫= fire subs).

End Facade.

(** ** Per-document synchronized state *)

Module BufferSync.

(** Modelled from the spec: the document type of ./model/document is not
    among the sources; a document has a stable identity (its buffer
    number) and a language identifier. *)
Record Document := { bufnr : Z; languageId : string }.

(** Modelled from the spec: [SyncItem] of ./model/bufferSync is not among
    the sources; a feature-defined state object that may or may not
    expose a teardown capability. *)
Record SyncItem := { state : Json; has_teardown : bool }.

(** Modelled from the spec: what a registry of ./model/bufferSync does
    that can be seen from outside: the teardown of the item it holds for a
    document, together with whether the entry of that document was still
    stored at the moment the teardown ran, and the removal of the entry of a
    document. *)
Inductive Event :=
| TornDown (registry : positive) (document : Z) (stored : bool)
| Removed (registry : positive) (document : Z).

#[global] Instance Event_eq_dec : EqDecision Event.
Proof. solve_decision. Defined.

(** Modelled from the spec: the class [BufferSync] of ./model/bufferSync
    is not among the sources; a registry owns a mapping from document
    identity to the item its factory made for that document. *)
Record Registry := {
  id : positive;
  factory : Document -> option SyncItem;
  items : gmap Z SyncItem
}.

(** Modelled from the spec: the factory step of ./model/bufferSync on a
    document; the result is stored under the identity of the document, and
    a declined document leaves no entry. *)
Definition on_open (doc : Document) (reg : Registry) : Registry :=
  match factory reg doc with
  | Some item =>
      {| id := id reg; factory := factory reg;
         items := <[bufnr doc := item]> (items reg) |}
  | None => reg
  end.

(** Modelled from the spec: the constructor of [BufferSync], which
    [registerBufferSync(create)] calls as [new BufferSync(create, this)];
    the factory is invoked for every document that is open. *)
Definition registerBufferSync (fresh : positive)
    (create : Document -> option SyncItem) (opened : list Document) : Registry :=
  foldl (fun reg doc => on_open doc reg)
    {| id := fresh; factory := create; items := ∅ |} opened.

(** Modelled from the spec: the teardown capability of the item of a
    document, invoked by a registry of ./model/bufferSync; it runs on the
    registry as it is at that moment, and the registry is left as it is. *)
Definition invoke_teardown (document : Z)
    (st : Registry * list Event) : Registry * list Event :=
  (st.1,
   st.2 ++ [TornDown (id st.1) document
              (bool_decide (is_Some (items st.1 !! document)))]).

(** Modelled from the spec: a registry of ./model/bufferSync dropping the
    entry of a document from its mapping. *)
Definition remove_entry (document : Z)
    (st : Registry * list Event) : Registry * list Event :=
  ({| id := id st.1; factory := factory st.1;
      items := delete document (items st.1) |},
   st.2 ++ [Removed (id st.1) document]).

(** Modelled from the spec: the close handler of ./model/bufferSync; for a
    stored entry, first the teardown of the item is invoked, when the item
    has one, then the entry is removed; without an entry nothing happens. *)
Definition on_close (closed : Z) (reg : Registry) : Registry * list Event :=
  match items reg !! closed with
  | Some item =>
      let torn_down :=
        if has_teardown item then invoke_teardown closed (reg, [])
        else (reg, []) in
      remove_entry closed torn_down
  | None => (reg, [])
  end.

(** Modelled from the spec: a run of close events of the document model,
    handled by one registry of ./model/bufferSync in the order given. *)
Fixpoint close_all (closes : list Z) (reg : Registry) : Registry * list Event :=
  match closes with
  | [] => (reg, [])
  | closed :: later =>
      let '(reg1, seen1) := on_close closed reg in
      let '(reg2, seen2) := close_all later reg1 in
      (reg2, seen1 ++ seen2)
  end.

(** Modelled from the spec: the document model of ./core/documents
    delivering one close event to every registry that observes it. *)
Fixpoint close_document (closed : Z) (regs : list Registry)
    : list Registry * list Event :=
  match regs with
  | [] => ([], [])
  | reg :: others =>
      let '(reg', seen) := on_close closed reg in
      let '(others', seen') := close_document closed others in
      (reg' :: others', seen ++ seen')
  end.

(** An event of registry [registry] about document [document]. *)
Definition concerns (registry : positive) (document : Z) (e : Event) : bool :=
  match e with
  | TornDown r d _ | Removed r d =>
      bool_decide (r = registry) && bool_decide (d = document)
  end.

(** What was seen of registry [registry] about document [document], in the
    order in which it happened. *)
Definition about (registry : positive) (document : Z)
    (seen : list Event) : list Event :=
  filter (fun e => concerns registry document e = true) seen.

End BufferSync.

(** ** Reading a run *)

(** The calls [init] makes once the snapshot [e] is known, in program
    order. *)
Definition seeding_calls (e : Env) : list Call := [
  call WorkspaceFolderControl "setWorkspaceFolders" [VFolders (workspaceFolders e)];
  call ConfigurationStore "updateUserConfig" [VJson (config e)]
].

Definition attach_calls (e : Env) : list Call := [
  call FilesSvc "attach" [VNvim; VEnv e];
  call ContentProviderSvc "attach" [VNvim];
  call KeymapsSvc "attach" [VNvim];
  call AutocmdsSvc "attach" [VNvim; VEnv e];
  call LocationsSvc "attach" [VNvim; VEnv e];
  call WatchersSvc "attach" [VNvim; VEnv e];
  call DocumentsManager "attach" [VNvim; VEnv e]
].

Definition dispose_calls : list Call := [
  call WatchersSvc "dispose" [];
  call AutocmdsSvc "dispose" [];
  call ContentProviderSvc "dispose" [];
  call DocumentsManager "dispose" [];
  call ConfigurationStore "dispose" []
].

Definition vim_info_call : Call := call Nvim "call" [VStr "coc#util#vim_info"].

Definition echoError_call (reported : Z) : Call :=
  call Nvim "echoError" [VStr (version_message reported)].

(** The accessor table once every name of [names] is bound to [window]. *)
Definition installed (window : WindowRef) (names : list string)
    (table : gmap string WindowRef) : gmap string WindowRef :=
  foldl (fun t m => <[m := window]> t) table names.

(** The object after the shim is installed and the snapshot [e] is stored,
    with [said] the calls made up to then. *)
Definition handshaken (window : WindowRef) (e : Env) (said : list Call)
    (w : World) : World :=
  {| trace := trace w ++ said;
     _env := Some e;
     accessors := installed window methods (accessors w);
     docs := docs w |}.

Definition is_warn (c : Call) : bool :=
  match receiver c with
  | Logger => String.eqb (method c) "warn"
  | _ => false
  end.

(** The number of lines handed to [logger.warn]. *)
Definition warnings (t : list Call) : nat := length (filter (fun c => is_warn c = true) t).

Definition is_attach (c : Call) : bool := String.eqb (method c) "attach".

(** A caller that invokes one forwarding function once per element of
    [uses] (the stack text at the call and the arguments), whatever the
    earlier invocations returned or threw. *)
Fixpoint invoke_each (host : Host) (f : Forwarder)
    (uses : list (string * list Json)) (w : World) : list (Result Json) * World :=
  match uses with
  | [] => ([], w)
  | (stack, args) :: later =>
      let '(r, w1) := invoke host f stack args w in
      let '(rs, w2) := invoke_each host f later w1 in
      (r :: rs, w2)
  end.

(** [file] lies below the directory [dir]. *)
Definition below (dir file : string) : bool := String.prefix (dir +:+ "/") file.

(** ** The rest of the class: getters, requests, reset *)

(** What the methods below hand back to their callers. *)
Module Editing.

Record Position := { line : Z; character : Z }.

Record TextDocument := { td_uri : string; td_version : Z }.

(** The one field of a [Document] that [getCurrentState] reads. *)
Record DocumentHandle := { textDocument : TextDocument }.

Record EditerState := { document : TextDocument; position : Position }.

(** Answers of the editor to requests that carry a result. *)
Record Editor := {
  (** [nvim.call(...)] and [nvim.callAsync(...)] *)
  rpc_reply : list Call -> Call -> Result Json;
  (** [await this.document], the current document or [undefined] *)
  current_document : list Call -> Result (option DocumentHandle);
  (** [await ui.getCursorPosition(this.nvim)] *)
  cursor_position : list Call -> Result Position
}.

End Editing.

Module Getters.

(** [this.env] *)
Definition env : M (option Env) := fun w => (Ok (_env w), w).

(** [!this._env.isVim] *)
Definition isNvim : M bool :=
  e <- this_env "isVim" ;; ret (negb (isVim e)).

(** [this._env.isVim] *)
Definition isVim : M bool :=
  e <- this_env "isVim" ;; ret (isVim e).

(** [this.env.floating || this.env.textprop] *)
Definition floatSupported : M bool :=
  e <- this_env "floating" ;;
  if floating e then ret true
  else e <- this_env "textprop" ;; ret (textprop e).

(** [this._env.completeOpt] *)
Definition completeOpt : M string :=
  e <- this_env "completeOpt" ;; ret (completeOpt e).

End Getters.

Section Requests.

Variable host : Host.
Variable editor : Editing.Editor.

Definition detach : M unit :=
  perform host (call DocumentsManager "detach" []).

Definition reset : M unit :=
  perform host (call WorkspaceFolderControl "reset" []) ;;
  perform host (call DocumentsManager "reset" []).

(** A request to the editor that carries a result back. *)
Definition request (c : Call) : M Json :=
  fun w => (Editing.rpc_reply editor (trace w) c, record_call c w).

Definition callAsync (method : string) (args : list Json) : M Json :=
  nvim <- Getters.isNvim ;;
  if nvim then request (call Nvim "call" [VStr method; VJson (JArr args)])
  else
    request (call Nvim "callAsync"
               [VStr "coc#util#with_callback";
                VJson (JArr [JStr method; JArr args])]).

(** [await this.document] reads the getter of the document manager. *)
Definition this_document : M (option Editing.DocumentHandle) :=
  fun w =>
    let c := call DocumentsManager "document" [] in
    match Editing.current_document editor (trace w) with
    | Ok d => (Ok d, record_call c w)
    | Throw x => (Throw x, record_call c w)
    end.

(** [await ui.getCursorPosition(this.nvim)] *)
Definition ui_getCursorPosition : M Editing.Position :=
  fun w =>
    let c := call Nvim "ui.getCursorPosition" [VNvim] in
    match Editing.cursor_position editor (trace w) with
    | Ok p => (Ok p, record_call c w)
    | Throw x => (Throw x, record_call c w)
    end.

Definition getCurrentState : M Editing.EditerState :=
  document <- this_document ;;
  position <- ui_getCursorPosition ;;
  match document with
  | Some d =>
      ret {| Editing.document := Editing.textDocument d;
             Editing.position := position |}
  | None =>
      fun w =>
        (Throw (TypeError
           "Cannot read properties of undefined (reading 'textDocument')"), w)
  end.

End Requests.

(** [nvim.echoError] among the calls. *)
Definition is_echoError (c : Call) : bool :=
  match receiver c with
  | Nvim => String.eqb (method c) "echoError"
  | _ => false
  end.

(** The number of lines handed to [nvim.echoError]. *)
Definition diagnostics (t : list Call) : nat :=
  length (filter (fun c => is_echoError c = true) t).

(** The calls a run added to the trace it started from. *)
Definition added (before after : World) : list Call :=
  drop (length (trace before)) (trace after).

(** The world with another home directory for the user. *)
Definition with_homedir (home : string) (p : Process) : Process :=
  {| COC_VIMCONFIG := COC_VIMCONFIG p; homedir := home; tmpdir := tmpdir p;
     pid := pid p; has_TEST := has_TEST p |}.

(** The place in [event_objects] of the event a facade field is taken
    from. *)
Definition place (n : Facade.Name) : nat :=
  match n with
  | Facade.DidChangeConfiguration => 0
  | Facade.DidChangeWorkspaceFolders => 1
  | Facade.DidOpenTextDocument => 2
  | Facade.DidChangeTextDocument => 3
  | Facade.DidCloseTextDocument => 4
  | Facade.DidSaveTextDocument => 5
  | Facade.WillSaveTextDocument => 6
  | Facade.DidOpenTerminal => 7
  | Facade.DidCloseTerminal => 8
  | Facade.DidRuntimePathChange => 9
  | Facade.DidCreateFiles => 10
  | Facade.DidRenameFiles => 11
  | Facade.DidDeleteFiles => 12
  | Facade.WillCreateFiles => 13
  | Facade.WillRenameFiles => 14
  | Facade.WillDeleteFiles => 15
  end%nat.

(** The sixteen event objects, in the order of the record. *)
Definition event_objects (ev : EventObjects) : list EventRef := [
  ev_configurations ev; ev_workspaceFolders ev; ev_open ev; ev_change ev;
  ev_close ev; ev_save ev; ev_willSave ev; ev_openTerminal ev;
  ev_closeTerminal ev; ev_runtimePath ev; ev_didCreate ev; ev_didRename ev;
  ev_didDelete ev; ev_willCreate ev; ev_willRename ev; ev_willDelete ev
].

(** ** Sample inputs *)

Module Sample.

(** A snapshot of an editor plugin one API version behind. *)
Definition old_env : Env :=
  {| apiversion := 16; isVim := false; floating := true; textprop := false;
     completeOpt := "menu,preview";
     workspaceFolders := [{| uri := "file:///work/app"; name := "app" |}];
     config := JObj [("suggest.noselect", JBool true)];
     extensionRoot := "/home/u/.config/coc/extensions" |}.

Definition current_env : Env :=
  {| apiversion := 17; isVim := false; floating := true; textprop := false;
     completeOpt := "menu,preview";
     workspaceFolders := [{| uri := "file:///work/app"; name := "app" |}];
     config := JObj [("suggest.noselect", JBool true)];
     extensionRoot := "/home/u/.config/coc/extensions" |}.

(** A host on which every call returns; window methods give their
    arguments back. *)
Definition quiet_host (e : Env) : Host :=
  {| vim_info := fun _ => Ok e;
     outcome := fun _ _ => None;
     window_apply := fun _ _ _ args => Ok (JArr args) |}.

(** A host whose watcher registry fails to shut down. *)
Definition failing_host : Host :=
  {| vim_info := fun _ => Ok current_env;
     outcome := fun _ c =>
       match receiver c with
       | WatchersSvc =>
           if String.eqb (method c) "dispose"
           then Some (Raised c (JStr "watchman gone")) else None
       | _ => None
       end;
     window_apply := fun _ _ _ args => Ok (JArr args) |}.

(** A freshly constructed object: nothing called, no snapshot, no shim. *)
Definition blank : World :=
  {| trace := []; _env := None; accessors := ∅;
     docs := {| docs_root := ""; docs_cwd := "/work/app" |} |}.

(** The object once a snapshot is stored. *)
Definition ready : World :=
  {| trace := []; _env := Some current_env; accessors := ∅;
     docs := {| docs_root := "/work/app"; docs_cwd := "/work/app/src" |} |}.

Definition plain_process : Process :=
  {| COC_VIMCONFIG := Some "/home/u/.config/nvim"; homedir := "/home/u";
     tmpdir := "/tmp"; pid := 4242; has_TEST := false |}.

Definition test_process : Process :=
  {| COC_VIMCONFIG := Some "/home/u/.config/nvim"; homedir := "/home/u";
     tmpdir := "/tmp"; pid := 4242; has_TEST := true |}.

Definition events : EventObjects :=
  {| ev_configurations := 1; ev_workspaceFolders := 2; ev_open := 3;
     ev_change := 4; ev_close := 5; ev_save := 6; ev_willSave := 7;
     ev_openTerminal := 8; ev_closeTerminal := 9; ev_runtimePath := 10;
     ev_didCreate := 11; ev_didRename := 12; ev_didDelete := 13;
     ev_willCreate := 14; ev_willRename := 15; ev_willDelete := 16 |}%positive.

(** The text of [Error().stack] inside a forwarding function called from
    [activate], with five frames below the header line. *)
Definition stack_lines : list string := [
  "Error";
  "    at Workspace.showMessage (workspace.js:113:30)";
  "    at activate (extension.js:10:15)";
  "    at Extensions.load (extensions.js:220:9)";
  "    at Plugin.init (plugin.js:88:5)";
  "    at attach (attach.js:40:3)"
].

Definition stack_text : string := Str.join Str.newline stack_lines.

(** A feature that keeps state for TypeScript documents only. *)
Definition typescript_only (doc : BufferSync.Document)
    : option BufferSync.SyncItem :=
  if String.eqb (BufferSync.languageId doc) "typescript"
  then Some {| BufferSync.state := JObj [("opened", JBool true)];
               BufferSync.has_teardown := true |}
  else None.

Definition doc_a : BufferSync.Document :=
  {| BufferSync.bufnr := 1; BufferSync.languageId := "typescript" |}.

Definition doc_b : BufferSync.Document :=
  {| BufferSync.bufnr := 2; BufferSync.languageId := "plaintext" |}.

Definition registry : BufferSync.Registry :=
  BufferSync.registerBufferSync 1%positive typescript_only [doc_a; doc_b].

End Sample.

(** More sample inputs. *)
Module Scenario.

(** A host whose handshake RPC is rejected. *)
Definition deaf_host : Host :=
  {| vim_info := fun _ => Throw (Raised vim_info_call (JStr "channel closed"));
     outcome := fun _ _ => None;
     window_apply := fun _ _ _ args => Ok (JArr args) |}.

(** A host on which attaching the keymap registry fails. *)
Definition keymap_failing_host : Host :=
  {| vim_info := fun _ => Ok Sample.old_env;
     outcome := fun _ c =>
       match receiver c with
       | KeymapsSvc => Some (Raised c (JStr "no keymaps"))
       | _ => None
       end;
     window_apply := fun _ _ _ args => Ok (JArr args) |}.

(** An editor without a current document. *)
Definition empty_editor : Editing.Editor :=
  {| Editing.rpc_reply := fun _ c => Ok (JStr (method c));
     Editing.current_document := fun _ => Ok None;
     Editing.cursor_position :=
       fun _ => Ok {| Editing.line := 3; Editing.character := 7 |} |}.

(** An editor with a current document. *)
Definition busy_editor : Editing.Editor :=
  {| Editing.rpc_reply := fun _ c => Ok (JStr (method c));
     Editing.current_document := fun _ =>
       Ok (Some {| Editing.textDocument :=
                     {| Editing.td_uri := "file:///work/app/a.ts";
                        Editing.td_version := 4 |} |});
     Editing.cursor_position :=
       fun _ => Ok {| Editing.line := 3; Editing.character := 7 |} |}.

End Scenario.

(** * Properties *)

(** ** The monad and the calls *)

Lemma record_call_trace c w : trace (record_call c w) = trace w ++ [c].
Proof. reflexivity. Qed.

Section Runs.

Variable host : Host.

(** A run of calls stops at the first one that throws: either all of them
    were made and returned, or the calls made are those up to the one that
    threw. *)
Lemma for_of_perform cs : forall w r w',
  for_of cs (perform host) w = (r, w') ->
  _env w' = _env w /\ accessors w' = accessors w /\ docs w' = docs w /\
  ((r = Ok tt /\ trace w' = trace w ++ cs /\
    forall before c after, cs = before ++ c :: after ->
      outcome host (trace w ++ before) c = None)
   \/
   (exists before c after e,
      cs = before ++ c :: after /\ r = Throw e /\
      trace w' = trace w ++ before ++ [c] /\
      outcome host (trace w ++ before) c = Some e)).
Proof.
  induction cs as [|c cs IH]; intros w r w' Hrun.
  - cbn in Hrun. injection Hrun as <- <-. repeat split; try reflexivity.
    left. rewrite app_nil_r. repeat split; try reflexivity.
    intros [|? ?] ? ? ?; discriminate.
  - cbn in Hrun. unfold bind, perform in Hrun.
    destruct (outcome host (trace w) c) as [e|] eqn:Hc.
    + injection Hrun as <- <-. repeat split; try reflexivity.
      right. exists [], c, cs, e. rewrite app_nil_r. repeat split; try reflexivity.
      assumption.
    + apply IH in Hrun as (He & Ha & Hd & Hcases).
      cbn in He, Ha, Hd. repeat split; try assumption.
      destruct Hcases as [(-> & Ht & Hall) | (before & c' & after & e & -> & -> & Ht & Hthrow)].
      * left. rewrite Ht, record_call_trace, <- app_assoc. repeat split; try reflexivity.
        intros [|b before] c' after Heq.
        -- injection Heq as <- _. rewrite app_nil_r. exact Hc.
        -- injection Heq as <- ->. cbn [app].
           specialize (Hall before c' after eq_refl).
           rewrite record_call_trace, <- app_assoc in Hall. exact Hall.
      * right. exists (c :: before), c', after, e.
        rewrite Ht, record_call_trace, <- !app_assoc in *. cbn [app] in *.
        repeat split; try reflexivity. exact Hthrow.
Qed.

Lemma perform_then c cs w :
  for_of (c :: cs) (perform host) w =
  match outcome host (trace w) c with
  | Some x => (Throw x, record_call c w)
  | None => for_of cs (perform host) (record_call c w)
  end.
Proof.
  cbn [for_of]. unfold bind, perform.
  destruct (outcome host (trace w) c); reflexivity.
Qed.

End Runs.

Section Handshake.

Variable host : Host.

Lemma defineProperty_fresh m window w :
  accessors w !! m = None ->
  defineProperty m window w =
  (Ok tt, {| trace := trace w; _env := _env w;
             accessors := <[m := window]> (accessors w); docs := docs w |}).
Proof. intros H. unfold defineProperty. rewrite H. reflexivity. Qed.

(** Installing the shim on an object that has none of the names yet binds
    every name to the window and touches nothing else. *)
Lemma install_fresh window names : forall w,
  NoDup names ->
  (forall m, m ∈ names -> accessors w !! m = None) ->
  for_of names (fun m => defineProperty m window) w =
  (Ok tt, {| trace := trace w; _env := _env w;
             accessors := installed window names (accessors w);
             docs := docs w |}).
Proof.
  induction names as [|m names IH]; intros w Hnd Hfree.
  - destruct w; reflexivity.
  - apply NoDup_cons in Hnd as [Hm Hnd].
    cbn [for_of]. unfold bind.
    rewrite defineProperty_fresh by (apply Hfree; left).
    rewrite IH; [reflexivity | assumption |].
    intros m' Hm'. cbn.
    rewrite lookup_insert_ne by (intros ->; contradiction).
    apply Hfree. now right.
Qed.

(** Whatever state the object is in, a shim that installs leaves trace,
    snapshot and documents alone. *)
Lemma install_any window names : forall w r w',
  for_of names (fun m => defineProperty m window) w = (r, w') ->
  trace w' = trace w /\ _env w' = _env w /\ docs w' = docs w /\
  (r = Ok tt -> accessors w' = installed window names (accessors w)).
Proof.
  induction names as [|m names IH]; intros w r w' Hrun.
  - cbn in Hrun. injection Hrun as <- <-. repeat split; reflexivity.
  - cbn [for_of] in Hrun. unfold bind, defineProperty in Hrun.
    destruct (accessors w !! m) eqn:Hm.
    + injection Hrun as <- <-. repeat split; try reflexivity. discriminate.
    + apply IH in Hrun as (Ht & He & Hd & Ha). cbn in *. repeat split; assumption.
Qed.

Lemma methods_NoDup : NoDup methods.
Proof. apply (bool_decide_unpack _). vm_compute. exact I. Qed.

Ltac flatten_trace :=
  unfold record_call; cbn -[version_message Z.eqb APIVERSION];
  rewrite <- ?app_assoc; cbn [app].

Ltac step_outcomes :=
  repeat (match goal with
          | |- context [outcome host ?t ?c] =>
              destruct (outcome host t c); flatten_trace; try reflexivity
          end).

(** [init], step by step: the shim, the RPC, the diagnostic when the
    versions differ, then the seeding and attach calls in program order up
    to the first one that throws. *)
Lemma init_steps window w :
  init host window w =
  match for_of methods (fun m => defineProperty m window) w with
  | (Throw x, w1) => (Throw x, w1)
  | (Ok _, w1) =>
      match vim_info host (trace w1) with
      | Throw x => (Throw x, record_call vim_info_call w1)
      | Ok e =>
          for_of (seeding_calls e ++ attach_calls e) (perform host)
            {| trace :=
                 trace w1 ++ vim_info_call ::
                   (if apiversion e =? APIVERSION then []
                    else [echoError_call (apiversion e)]);
               _env := Some e; accessors := accessors w1; docs := docs w1 |}
      end
  end.
Proof.
  unfold init. unfold bind at 1.
  destruct (for_of methods _ w) as [[[]|x] w1]; [|reflexivity].
  unfold bind at 1. unfold nvim_call_vim_info.
  destruct (vim_info host (trace w1)) as [e|x]; [|reflexivity].
  unfold vim_info_call, echoError_call, seeding_calls, attach_calls.
  cbn -[Z.eqb APIVERSION version_message].
  destruct (apiversion e =? APIVERSION); cbn -[version_message];
    unfold bind, perform, attach, perform, emit; flatten_trace.
  all: step_outcomes.
Qed.

End Handshake.

(** ** The handshake *)

(** Whatever the calls still to come do, the trace only grows by them. *)
Ltac rest_of_run :=
  match goal with
  | |- context [for_of ?cs ?f ?w0] =>
      let Hrest := fresh "Hrest" in
      let Hcases := fresh "Hcases" in
      destruct (for_of cs f w0) as [? ?] eqn:Hrest;
      apply for_of_perform in Hrest as (_ & _ & _ & Hcases);
      cbn [snd];
      repeat match goal with x := _ : World |- _ => subst x end;
      destruct Hcases as [(_ & -> & _) | (? & ? & ? & ? & _ & _ & -> & _)];
      cbn [trace record_call handshaken]; rewrite <- ?app_assoc;
      eexists; cbn [app]; reflexivity
  end.

(** C1. When the snapshot reports an API version other than 17 on a fresh
    object, [init] hands [nvim.echoError] one line naming the reported
    version, 17 and the rebuild hint, and goes on with the same seeding and
    attach calls as when the versions match: [setWorkspaceFolders] gets the
    folders of the snapshot, and once it has returned [updateUserConfig]
    gets the configuration of the snapshot. *)
Theorem init_version_mismatch host window w e :
  (forall m, m ∈ methods -> accessors w !! m = None) ->
  vim_info host (trace w) = Ok e ->
  apiversion e <> APIVERSION ->
  let diagnostic :=
    call Nvim "echoError"
      [VStr ("API version " +:+ pretty (apiversion e) +:+
             " is not 17, please build coc.nvim by 'yarn install' after pull source code.")] in
  let folders :=
    call WorkspaceFolderControl "setWorkspaceFolders" [VFolders (workspaceFolders e)] in
  let settings :=
    call ConfigurationStore "updateUserConfig" [VJson (config e)] in
  let seeded := handshaken window e [vim_info_call; diagnostic] w in
  init host window w =
    for_of (seeding_calls e ++ attach_calls e) (perform host) seeded
  /\ (exists later,
        trace (init host window w).2 =
          trace w ++ [vim_info_call; diagnostic; folders] ++ later)
  /\ (outcome host (trace seeded) folders = None ->
      exists later,
        trace (init host window w).2 =
          trace w ++ [vim_info_call; diagnostic; folders; settings] ++ later)
  /\ (forall host' e',
        vim_info host' (trace w) = Ok e' ->
        apiversion e' = APIVERSION ->
        init host' window w =
          for_of (seeding_calls e' ++ attach_calls e') (perform host')
            (handshaken window e' [vim_info_call] w)).
Proof.
  intros Hfresh Hinfo Hversion diagnostic folders settings seeded.
  assert (Hrun : init host window w =
            for_of (seeding_calls e ++ attach_calls e) (perform host) seeded).
  { rewrite init_steps, (install_fresh window methods w methods_NoDup Hfresh).
    cbn [trace accessors docs]. rewrite Hinfo.
    destruct (Z.eqb_spec (apiversion e) APIVERSION) as [Heq|_]; [contradiction|].
    reflexivity. }
  split; [exact Hrun|]. rewrite Hrun.
  change (seeding_calls e ++ attach_calls e)
    with (folders :: settings :: attach_calls e).
  rewrite perform_then. repeat split.
  - destruct (outcome host (trace seeded) folders).
    + exists []. cbn. rewrite <- app_assoc. reflexivity.
    + rest_of_run.
  - intros ->. rewrite perform_then.
    destruct (outcome host _ settings).
    + exists []. cbn. rewrite <- !app_assoc. reflexivity.
    + rest_of_run.
  - intros host' e' Hinfo' Hversion'.
    rewrite init_steps, (install_fresh window methods w methods_NoDup Hfresh).
    cbn [trace accessors docs]. rewrite Hinfo', Hversion'. reflexivity.
Qed.

Lemma init_version_mismatch_witness :
  (forall m, m ∈ methods -> accessors Sample.blank !! m = None) /\
  apiversion Sample.old_env <> APIVERSION /\
  exists later,
    trace (init (Sample.quiet_host Sample.old_env) 1%positive Sample.blank).2 =
      [vim_info_call;
       call Nvim "echoError"
         [VStr "API version 16 is not 17, please build coc.nvim by 'yarn install' after pull source code."];
       call WorkspaceFolderControl "setWorkspaceFolders"
         [VFolders [{| uri := "file:///work/app"; name := "app" |}]];
       call ConfigurationStore "updateUserConfig"
         [VJson (JObj [("suggest.noselect", JBool true)])]] ++ later.
Proof.
  assert (Hfresh : forall m, m ∈ methods -> accessors Sample.blank !! m = None)
    by (intros m _; apply lookup_empty).
  assert (Hversion : apiversion Sample.old_env <> APIVERSION)
    by (cbn; unfold APIVERSION; lia).
  split; [exact Hfresh|]. split; [exact Hversion|].
  exact (proj1 (proj2 (proj2
    (init_version_mismatch (Sample.quiet_host Sample.old_env) 1%positive
       Sample.blank Sample.old_env Hfresh eq_refl Hversion))) eq_refl).
Defined.

(** C2. A run of [init] that returns has attached the services in the order
    files, content provider, keymaps, autocmds, locations, watchers, and the
    document model after all of them, as its last call. *)
Theorem init_attach_order host window w w' :
  init host window w = (Ok tt, w') ->
  exists e before,
    _env w' = Some e /\
    trace w' = trace w ++ before ++ attach_calls e /\
    Forall (fun c => is_attach c = false) before /\
    receiver <$> attach_calls e =
      [FilesSvc; ContentProviderSvc; KeymapsSvc; AutocmdsSvc; LocationsSvc;
       WatchersSvc; DocumentsManager].
Proof.
  intros Hrun. rewrite init_steps in Hrun.
  destruct (for_of methods _ w) as [[[]|x] w1] eqn:Hshim; [|discriminate].
  apply install_any in Hshim as (Ht & _ & _ & _).
  destruct (vim_info host (trace w1)) as [e|x]; [|discriminate].
  apply for_of_perform in Hrun as (He & _ & _ & Hcases).
  destruct Hcases as [(_ & Htrace & _) | (? & ? & ? & ? & _ & ? & _)];
    [|discriminate].
  cbn [trace _env] in He, Htrace. rewrite Ht in Htrace.
  exists e.
  exists (vim_info_call ::
            (if apiversion e =? APIVERSION then []
             else [echoError_call (apiversion e)]) ++ seeding_calls e).
  repeat split.
  - exact He.
  - rewrite Htrace, <- !app_assoc. cbn [app]. rewrite <- app_assoc. reflexivity.
  - destruct (apiversion e =? APIVERSION); repeat constructor.
Qed.

Lemma init_attach_order_witness :
  exists e before,
    _env (init (Sample.quiet_host Sample.current_env) 1%positive Sample.blank).2
      = Some e /\
    trace (init (Sample.quiet_host Sample.current_env) 1%positive Sample.blank).2
      = trace Sample.blank ++ before ++ attach_calls e /\
    Forall (fun c => is_attach c = false) before /\
    receiver <$> attach_calls e =
      [FilesSvc; ContentProviderSvc; KeymapsSvc; AutocmdsSvc; LocationsSvc;
       WatchersSvc; DocumentsManager].
Proof.
  apply (init_attach_order (Sample.quiet_host Sample.current_env) 1%positive
           Sample.blank).
  vm_compute. reflexivity.
Defined.

(** ** Shutdown *)

Lemma dispose_run host w :
  dispose host w = for_of dispose_calls (perform host) w.
Proof.
  unfold dispose, dispose_calls. cbn [for_of]. unfold bind, perform.
  repeat (match goal with
          | |- context [outcome host ?t ?c] => destruct (outcome host t c)
          end; try reflexivity).
Qed.

(** C3, as the code has it.  [dispose] calls the dispose of watchers,
    autocmds, content provider, document manager and configurations in that
    order.  When every step returns, all five are made.  When a step throws,
    it is the last call made: the exception leaves [dispose] and the steps
    after it are not executed. *)
Theorem dispose_in_order host w :
  ((dispose host w).1 = Ok tt /\
   trace (dispose host w).2 = trace w ++ dispose_calls /\
   forall before c after, dispose_calls = before ++ c :: after ->
     outcome host (trace w ++ before) c = None)
  \/
  (exists before c after e,
     dispose_calls = before ++ c :: after /\
     (dispose host w).1 = Throw e /\
     trace (dispose host w).2 = trace w ++ before ++ [c] /\
     outcome host (trace w ++ before) c = Some e).
Proof.
  rewrite dispose_run.
  destruct (for_of dispose_calls (perform host) w) as [r w'] eqn:Hrun.
  apply for_of_perform in Hrun as (_ & _ & _ & [Hall | Hthrow]); [left|right];
    assumption.
Qed.

(** C3, as stated, fails: when the dispose of the watcher registry throws,
    no other collaborator is disposed. *)
Lemma dispose_stops_at_first_throw :
  outcome Sample.failing_host (trace Sample.ready) (call WatchersSvc "dispose" [])
    = Some (Raised (call WatchersSvc "dispose" []) (JStr "watchman gone")) /\
  trace (dispose Sample.failing_host Sample.ready).2
    = [call WatchersSvc "dispose" []] /\
  ~ (forall c, In c dispose_calls ->
       In c (trace (dispose Sample.failing_host Sample.ready).2)).
Proof.
  split; [reflexivity|]. split; [reflexivity|].
  intros Hall.
  specialize (Hall (call ConfigurationStore "dispose" [])).
  cbn in Hall.
  destruct Hall as [Heq|[]]; [tauto|discriminate Heq].
Qed.

(** ** Splitting and joining lines *)

Lemma split_lacking sep s :
  Str.lacks sep s = true -> Str.split sep s = [s].
Proof.
  induction s as [|c s IH]; cbn [Str.split Str.lacks]; [reflexivity|].
  intros H. apply andb_prop in H as [Hc Hs].
  apply negb_true_iff in Hc. rewrite Hc, (IH Hs). reflexivity.
Qed.

Lemma split_at_sep sep s rest :
  Str.lacks sep s = true ->
  Str.split sep (s +:+ String sep rest) = s :: Str.split sep rest.
Proof.
  induction s as [|c s IH]; simpl.
  - intros _. rewrite Ascii.eqb_refl. reflexivity.
  - intros H. apply andb_prop in H as [Hc Hs].
    apply negb_true_iff in Hc. rewrite Hc, (IH Hs). reflexivity.
Qed.

(** Lines without a line break come back from the text they were joined
    to. *)
Lemma split_join_lines lines :
  lines <> [] ->
  Forall (fun l => Str.lacks (ascii_of_nat 10) l = true) lines ->
  Str.split (ascii_of_nat 10) (Str.join Str.newline lines) = lines.
Proof.
  induction lines as [|l lines IH]; [congruence|].
  intros _ Hl. apply Forall_cons in Hl as [Hl Hrest].
  destruct lines as [|l' lines].
  - cbn. apply split_lacking, Hl.
  - change (Str.join Str.newline (l :: l' :: lines))
      with (l +:+ String (ascii_of_nat 10) (Str.join Str.newline (l' :: lines))).
    rewrite split_at_sep by exact Hl.
    rewrite IH; [reflexivity | discriminate | exact Hrest].
Qed.

Lemma append_cons c s t : String c s +:+ t = String c (s +:+ t).
Proof. reflexivity. Qed.

Lemma append_empty t : "" +:+ t = t.
Proof. reflexivity. Qed.

Lemma prefix_app s t : String.prefix s (s +:+ t) = true.
Proof.
  induction s as [|c s IH]; [now destruct t|].
  rewrite append_cons. cbn [String.prefix].
  destruct (ascii_dec c c); [exact IH | contradiction].
Qed.

Lemma includes_here needle after :
  Str.includes needle (needle +:+ after) = true.
Proof.
  destruct (needle +:+ after) eqn:E; cbn [Str.includes];
    rewrite <- E, prefix_app; reflexivity.
Qed.

Lemma includes_middle needle before after :
  Str.includes needle (before +:+ needle +:+ after) = true.
Proof.
  induction before as [|c before IH].
  - rewrite append_empty. apply includes_here.
  - rewrite append_cons. cbn [Str.includes]. rewrite IH. apply orb_true_r.
Qed.

(** ** The deprecated-method shim *)

Lemma installed_lookup window name names : forall table,
  name ∈ names -> installed window names table !! name = Some window.
Proof.
  unfold installed.
  induction names as [|m names IH] using rev_ind; intros table Hin.
  - inversion Hin.
  - rewrite foldl_app. cbn.
    destruct (decide (m = name)) as [->|Hne].
    + apply lookup_insert_eq.
    + rewrite lookup_insert_ne by exact Hne. apply IH.
      apply elem_of_app in Hin as [Hin|Hin]; [exact Hin|].
      apply list_elem_of_singleton in Hin. congruence.
Qed.

(** After a run of [init] that returned, every deprecated name is an
    accessor bound to the window [init] was given. *)
Lemma init_installs_shim host window w w' name :
  init host window w = (Ok tt, w') ->
  name ∈ methods ->
  accessors w' !! name = Some window.
Proof.
  intros Hrun Hin. rewrite init_steps in Hrun.
  destruct (for_of methods _ w) as [[[]|x] w1] eqn:Hshim; [|discriminate].
  apply install_any in Hshim as (_ & _ & _ & Hacc).
  destruct (vim_info host (trace w1)) as [e|x]; [|discriminate].
  apply for_of_perform in Hrun as (_ & Ha & _ & _).
  cbn [accessors] in Ha. rewrite Ha, (Hacc eq_refl).
  apply installed_lookup, Hin.
Qed.

Lemma warnings_snoc t c :
  warnings (t ++ [c]) = (warnings t + if is_warn c then 1 else 0)%nat.
Proof.
  unfold warnings. rewrite filter_app, length_app. f_equal.
  cbn. destruct (is_warn c); cbn.
  - rewrite decide_True by reflexivity. reflexivity.
  - rewrite decide_False by discriminate. reflexivity.
Qed.

(** One invocation: one line to [logger.warn], then the call of the
    same-named window method with the arguments as given, whose result is
    the result of the invocation. *)
Lemma invoke_once host f stack args w :
  let warn :=
    call Logger "warn"
      [VStr (deprecation_message (fw_method f)); VStr (stack_excerpt stack)] in
  invoke host f stack args w =
  (window_apply host (trace w ++ [warn]) (fw_window f) (fw_method f) args,
   record_call (call (Window (fw_window f)) (fw_method f) (VJson <$> args))
     (record_call warn w)).
Proof. reflexivity. Qed.

Lemma invoke_each_warnings host f uses : forall w,
  warnings (trace (invoke_each host f uses w).2)
  = (warnings (trace w) + length uses)%nat.
Proof.
  induction uses as [|[stack args] uses IH]; intros w.
  - cbn. lia.
  - cbn [invoke_each]. rewrite invoke_once.
    destruct (invoke_each host f uses _) as [rs w2] eqn:Hrest.
    cbn [snd]. change w2 with (rs, w2).2. rewrite <- Hrest, IH.
    rewrite !record_call_trace, !warnings_snoc. cbn. lia.
Qed.

(** C4. After [init], reading the accessor of a deprecated name gives the
    forwarding function and logs nothing; each invocation of that function
    hands exactly one line to [logger.warn], so any number of invocations
    after a single read leaves as many lines; and each invocation calls the
    same-named method of the window with the arguments it was given and
    returns what that call returns. *)
Theorem shim_warns_once_per_invocation host window w0 w name uses :
  name ∈ methods ->
  init host window w0 = (Ok tt, w) ->
  let f := {| fw_method := name; fw_window := window |} in
  read_accessor name w = (Ok (Some f), w)
  /\ warnings (trace (invoke_each host f uses w).2)
     = (warnings (trace w) + length uses)%nat
  /\ forall stack args w1,
       let warn :=
         call Logger "warn"
           [VStr (deprecation_message name); VStr (stack_excerpt stack)] in
       (invoke host f stack args w1).1
         = window_apply host (trace w1 ++ [warn]) window name args
       /\ trace (invoke host f stack args w1).2
         = trace w1 ++ [warn; call (Window window) name (VJson <$> args)]
       /\ warnings (trace (invoke host f stack args w1).2)
         = S (warnings (trace w1)).
Proof.
  intros Hname Hinit f. split; [|split].
  - unfold read_accessor.
    rewrite (init_installs_shim host window w0 w name Hinit Hname). reflexivity.
  - apply invoke_each_warnings.
  - intros stack args w1 warn. rewrite invoke_once. cbn [fst snd].
    rewrite !record_call_trace, <- app_assoc. repeat split.
    rewrite app_assoc, !warnings_snoc. cbn. lia.
Qed.

Lemma shim_warns_once_per_invocation_witness :
  let host := Sample.quiet_host Sample.current_env in
  let w := (init host 1%positive Sample.blank).2 in
  let f := {| fw_method := "showMessage"; fw_window := 1%positive |} in
  "showMessage" ∈ methods /\
  read_accessor "showMessage" w = (Ok (Some f), w) /\
  warnings (trace (invoke_each host f
                     [(Sample.stack_text, [JStr "saved"]);
                      (Sample.stack_text, [JStr "saved again"])] w).2)
  = (warnings (trace w) + 2)%nat.
Proof.
  intros host w f.
  assert (Hname : "showMessage" ∈ methods) by (unfold methods; set_solver).
  assert (Hinit : init host 1%positive Sample.blank = (Ok tt, w))
    by (vm_compute; reflexivity).
  split; [exact Hname|].
  pose proof (shim_warns_once_per_invocation host 1%positive Sample.blank w
                "showMessage"
                [(Sample.stack_text, [JStr "saved"]);
                 (Sample.stack_text, [JStr "saved again"])] Hname Hinit)
    as (Hread & Hcount & _).
  split; [exact Hread | exact Hcount].
Defined.

Lemma append_assoc_str (a b c : string) : (a +:+ b) +:+ c = a +:+ b +:+ c.
Proof.
  induction a as [|x a IH]; [reflexivity|].
  rewrite !append_cons, IH. reflexivity.
Qed.

(** C5, as the code has it.  The line handed to [logger.warn] names the
    replacement, [window.<method>], and comes with an excerpt of two lines
    of the stack text: those at index 2 and 3, which for a stack text made
    of a header line followed by the frames are the second and the third
    frame. *)
Theorem shim_warning_text host f args w header first second third deeper :
  Forall (fun l => Str.lacks (ascii_of_nat 10) l = true)
    (header :: first :: second :: third :: deeper) ->
  let stack :=
    Str.join Str.newline (header :: first :: second :: third :: deeper) in
  let message :=
    "workspace." +:+ fw_method f +:+ " is deprecated, please use window."
    +:+ fw_method f +:+ " instead." in
  trace (invoke host f stack args w).2 =
    trace w ++
    [call Logger "warn"
       [VStr message;
        VStr (Str.newline +:+ second +:+ Str.newline +:+ third)];
     call (Window (fw_window f)) (fw_method f) (VJson <$> args)]
  /\ Str.includes ("window." +:+ fw_method f) message = true.
Proof.
  intros Hlines stack message. split.
  - rewrite invoke_once. cbn [snd].
    rewrite !record_call_trace, <- app_assoc. cbn [app].
    unfold stack_excerpt, stack.
    rewrite split_join_lines by (discriminate || exact Hlines).
    reflexivity.
  - unfold message.
    change (" is deprecated, please use window." +:+ fw_method f +:+ " instead.")
      with (" is deprecated, please use " +:+
            ("window." +:+ fw_method f +:+ " instead.")).
    rewrite <- (append_assoc_str "window." (fw_method f) " instead.").
    rewrite <- (append_assoc_str (fw_method f)), <- (append_assoc_str "workspace.").
    apply includes_middle.
Qed.

Lemma shim_warning_text_witness :
  trace (invoke (Sample.quiet_host Sample.current_env)
           {| fw_method := "showMessage"; fw_window := 1%positive |}
           Sample.stack_text [JStr "saved"] Sample.blank).2 =
    [call Logger "warn"
       [VStr "workspace.showMessage is deprecated, please use window.showMessage instead.";
        VStr (Str.newline +:+ "    at activate (extension.js:10:15)" +:+
              Str.newline +:+ "    at Extensions.load (extensions.js:220:9)")];
     call (Window 1%positive) "showMessage" [VJson (JStr "saved")]].
Proof.
  apply (proj1 (shim_warning_text (Sample.quiet_host Sample.current_env)
                  {| fw_method := "showMessage"; fw_window := 1%positive |}
                  [JStr "saved"] Sample.blank
                  "Error"
                  "    at Workspace.showMessage (workspace.js:113:30)"
                  "    at activate (extension.js:10:15)"
                  "    at Extensions.load (extensions.js:220:9)"
                  ["    at Plugin.init (plugin.js:88:5)";
                   "    at attach (attach.js:40:3)"]
                  ltac:(repeat constructor))).
Defined.

(** C5, as stated, fails: with five frames on the stack the excerpt holds
    the second and the third frame and stops there; the fourth frame is not
    in it. *)
Lemma shim_excerpt_has_two_frames :
  let second := "    at activate (extension.js:10:15)" in
  let third := "    at Extensions.load (extensions.js:220:9)" in
  let fourth := "    at Plugin.init (plugin.js:88:5)" in
  trace (invoke (Sample.quiet_host Sample.current_env)
           {| fw_method := "showMessage"; fw_window := 1%positive |}
           Sample.stack_text [] Sample.blank).2 =
    [call Logger "warn"
       [VStr (deprecation_message "showMessage");
        VStr (stack_excerpt Sample.stack_text)];
     call (Window 1%positive) "showMessage" []]
  /\ Sample.stack_lines !! 2%nat = Some second
  /\ Sample.stack_lines !! 3%nat = Some third
  /\ Sample.stack_lines !! 4%nat = Some fourth
  /\ stack_excerpt Sample.stack_text
     = Str.newline +:+ second +:+ Str.newline +:+ third
  /\ stack_excerpt Sample.stack_text
     <> Str.newline +:+ Str.join Str.newline [second; third; fourth]
  /\ Str.includes fourth (stack_excerpt Sample.stack_text) = false.
Proof.
  cbv zeta. repeat split; try reflexivity.
  apply String.eqb_neq. vm_compute. reflexivity.
Qed.

(** ** The event facade *)

Lemma silent_listeners (l : Facade.Listener) (payload : Json) ls :
  l ∉ ls ->
  filter (fun d : Facade.Listener * Json => d.1 = l)
    ((fun l' => (l', payload)) <$> ls) = [].
Proof.
  induction ls as [|l' ls IH]; [reflexivity|].
  intros Hl. apply not_elem_of_cons in Hl as [Hne Hl].
  cbn [fmap list_fmap]. rewrite filter_cons_False by (cbn; congruence).
  apply IH, Hl.
Qed.

(** A listener that subscribes once to an event object receives the payload
    of every emission of that object, in the order of emission, and nothing
    else. *)
Lemma observed_by_new_listener e l subs emissions :
  (forall e' ls, subs !! e' = Some ls -> l ∉ ls) ->
  Facade.observed (Facade.subscribe e l subs) emissions l
  = snd <$> filter (fun em : EventRef * Json => em.1 = e) emissions.
Proof.
  intros Hnew. unfold Facade.observed.
  induction emissions as [|[e0 payload] emissions IH]; [reflexivity|].
  rewrite bind_cons, filter_app, fmap_app, IH. clear IH.
  assert (Hold : forall e', l ∉ default [] (subs !! e')).
  { intros e'. destruct (subs !! e') as [ls|] eqn:Hls; cbn.
    - eapply Hnew, Hls.
    - apply not_elem_of_nil. }
  unfold Facade.fire, Facade.subscribe. cbn [fst snd].
  destruct (decide (e0 = e)) as [->|Hne].
  - rewrite lookup_insert_eq. cbn [default from_option]. unfold id.
    rewrite fmap_app, filter_app, silent_listeners by apply Hold.
    rewrite filter_cons_True by reflexivity. cbn.
    rewrite decide_True by reflexivity. reflexivity.
  - rewrite lookup_insert_ne by congruence.
    rewrite silent_listeners by apply Hold.
    rewrite filter_cons_False by (cbn; congruence). reflexivity.
Qed.

(** C6. Every event field of a constructed [Workspace] is the event object
    of the collaborator that owns it, the very same object.  So a listener
    subscribed through the facade and one subscribed on the collaborator are
    listeners of one object: what either receives is the payloads of that
    object's emissions, each one, in the order of emission. *)
Theorem facade_events_are_aliases VERSION CONFIG_FILE_NAME p ev ws :
  constructor VERSION CONFIG_FILE_NAME p ev = Ok ws ->
  forall n,
    Facade.on_facade ws n = Facade.on_owner ws n
    /\ (forall l subs emissions,
          Facade.observed (Facade.subscribe (Facade.on_facade ws n) l subs)
            emissions l
          = Facade.observed (Facade.subscribe (Facade.on_owner ws n) l subs)
              emissions l)
    /\ (forall l subs emissions,
          (forall e ls, subs !! e = Some ls -> l ∉ ls) ->
          Facade.observed (Facade.subscribe (Facade.on_facade ws n) l subs)
            emissions l
          = snd <$> filter (fun em : EventRef * Json =>
                              em.1 = Facade.on_owner ws n) emissions).
Proof.
  intros Hnew n.
  assert (Halias : Facade.on_facade ws n = Facade.on_owner ws n).
  { unfold constructor in Hnew.
    destruct (normalize_env_value (COC_VIMCONFIG p)); [|discriminate].
    injection Hnew as <-. destruct n; reflexivity. }
  split; [exact Halias|]. rewrite Halias. split; [reflexivity|].
  intros l subs emissions Hl. apply observed_by_new_listener, Hl.
Qed.

Lemma facade_events_are_aliases_witness :
  exists ws,
    constructor "0.0.80" "coc-settings.json" Sample.plain_process Sample.events
      = Ok ws /\
    Facade.on_facade ws Facade.DidChangeTextDocument = 4%positive /\
    Facade.on_facade ws Facade.DidChangeTextDocument
      = doc_onDidChangeDocument (documentsManager ws) /\
    Facade.observed
      (Facade.subscribe (Facade.on_facade ws Facade.DidChangeTextDocument)
         7%positive ∅)
      [(4%positive, JNum 1); (5%positive, JNum 2); (4%positive, JNum 3)]
      7%positive
    = [JNum 1; JNum 3].
Proof.
  destruct (constructor "0.0.80" "coc-settings.json" Sample.plain_process
              Sample.events) as [ws|] eqn:Hnew; [|discriminate Hnew].
  exists ws. split; [reflexivity|].
  pose proof (facade_events_are_aliases _ _ _ _ ws Hnew
                Facade.DidChangeTextDocument) as (Halias & _ & Hseen).
  assert (Hfour : Facade.on_owner ws Facade.DidChangeTextDocument = 4%positive)
    by (injection Hnew as <-; reflexivity).
  split; [rewrite Halias; exact Hfour|]. split; [exact Halias|].
  rewrite (Hseen 7%positive ∅
             [(4%positive, JNum 1); (5%positive, JNum 2); (4%positive, JNum 3)])
    by (intros e ls Hls; rewrite lookup_empty in Hls; discriminate Hls).
  rewrite Hfour. reflexivity.
Defined.

(** ** Per-document registries *)

Section Registries.

Import BufferSync.

Lemma on_close_absent closed reg :
  items reg !! closed = None -> on_close closed reg = (reg, []).
Proof. intros H. unfold on_close. rewrite H. reflexivity. Qed.

Lemma on_close_id closed reg : id (on_close closed reg).1 = id reg.
Proof.
  unfold on_close. destruct (items reg !! closed) as [item|]; [|reflexivity].
  destruct (has_teardown item); reflexivity.
Qed.

Lemma on_close_items closed reg :
  items (on_close closed reg).1 = delete closed (items reg).
Proof.
  unfold on_close. destruct (items reg !! closed) as [item|] eqn:H.
  - destruct (has_teardown item); reflexivity.
  - symmetry. apply delete_id, H.
Qed.

(** What a close shows of a stored entry: the teardown, when the item has
    one, run while the entry was still stored, and after it the removal. *)
Lemma on_close_stored closed reg item :
  items reg !! closed = Some item ->
  (on_close closed reg).2 =
  (if has_teardown item then [TornDown (id reg) closed true] else [])
  ++ [Removed (id reg) closed].
Proof.
  intros H. unfold on_close. rewrite H.
  destruct (has_teardown item); [|reflexivity].
  unfold remove_entry, invoke_teardown. cbn [fst snd app].
  rewrite H. reflexivity.
Qed.

Lemma about_app r d seen seen' :
  about r d (seen ++ seen') = about r d seen ++ about r d seen'.
Proof. unfold about. apply filter_app. Qed.

Lemma about_all r d seen :
  Forall (fun e => concerns r d e = true) seen -> about r d seen = seen.
Proof.
  unfold about. induction 1 as [|e seen He _ IH]; [reflexivity|].
  rewrite filter_cons_True by exact He. rewrite IH. reflexivity.
Qed.

Lemma about_none r d seen :
  Forall (fun e => concerns r d e = false) seen -> about r d seen = [].
Proof.
  unfold about. induction 1 as [|e seen He _ IH]; [reflexivity|].
  rewrite filter_cons_False by congruence. exact IH.
Qed.

(** A close shows events of the closing registry about the closed document
    only. *)
Lemma on_close_concerns closed reg :
  Forall (fun e => concerns (id reg) closed e = true) (on_close closed reg).2.
Proof.
  assert (Hyes : forall stored,
            concerns (id reg) closed (TornDown (id reg) closed stored) = true
            /\ concerns (id reg) closed (Removed (id reg) closed) = true)
    by (intros stored; cbn; rewrite !bool_decide_eq_true_2 by reflexivity;
        split; reflexivity).
  unfold on_close. destruct (items reg !! closed) as [item|]; [|constructor].
  destruct (has_teardown item); cbn; repeat constructor; apply (Hyes true).
Qed.

Lemma on_close_elsewhere r d closed reg :
  id reg <> r \/ closed <> d ->
  about r d (on_close closed reg).2 = [].
Proof.
  intros Hother. apply about_none.
  eapply Forall_impl; [apply on_close_concerns|].
  intros [r' d' stored|r' d']; cbn; intros H;
    apply andb_prop in H as [Hr Hd];
    apply bool_decide_eq_true_1 in Hr, Hd; subst r' d';
    (destruct Hother as [Hne|Hne];
     [rewrite (bool_decide_eq_false_2 _ Hne); reflexivity
     |rewrite (bool_decide_eq_false_2 _ Hne); apply andb_false_r]).
Qed.

(** Once the entry of a document is gone, further close events show
    nothing about it, whatever else is closed. *)
Lemma close_all_absent closes : forall reg d,
  items reg !! d = None ->
  items (close_all closes reg).1 !! d = None /\
  about (id reg) d (close_all closes reg).2 = [].
Proof.
  induction closes as [|c closes IH]; intros reg d Hd; [split; [exact Hd|reflexivity]|].
  cbn [close_all].
  pose proof (on_close_id c reg) as Hid.
  pose proof (on_close_items c reg) as Hitems.
  assert (Hseen : about (id reg) d (on_close c reg).2 = []).
  { destruct (decide (c = d)) as [->|Hne].
    - rewrite (on_close_absent d reg Hd). reflexivity.
    - apply on_close_elsewhere. right. exact Hne. }
  destruct (on_close c reg) as [reg1 seen1]. cbn [fst snd] in *.
  assert (Hd1 : items reg1 !! d = None).
  { rewrite Hitems. destruct (decide (c = d)) as [->|Hne];
      [apply lookup_delete_eq | rewrite lookup_delete_ne by exact Hne; exact Hd]. }
  destruct (IH reg1 d Hd1) as [Hgone Hnone].
  destruct (close_all closes reg1) as [reg2 seen2]. cbn [fst snd] in *.
  split; [exact Hgone|].
  rewrite about_app, Hseen, <- Hid, Hnone. reflexivity.
Qed.

(** Documents that are not closed keep their entries. *)
Lemma close_all_others closes : forall reg d,
  d ∉ closes -> items (close_all closes reg).1 !! d = items reg !! d.
Proof.
  induction closes as [|c closes IH]; intros reg d Hd; [reflexivity|].
  apply not_elem_of_cons in Hd as [Hne Hd].
  cbn [close_all].
  pose proof (on_close_items c reg) as Hitems.
  destruct (on_close c reg) as [reg1 seen1]. cbn [fst] in Hitems.
  pose proof (IH reg1 d Hd) as Hrest.
  destruct (close_all closes reg1) as [reg2 seen2]. cbn [fst] in *.
  rewrite Hrest, Hitems. apply lookup_delete_ne. congruence.
Qed.

(** A document that the factory declined whenever it was opened has no
    entry in the registry. *)
Lemma declined_has_no_entry fresh create opened d :
  (forall doc, doc ∈ opened -> bufnr doc = d -> create doc = None) ->
  items (registerBufferSync fresh create opened) !! d = None.
Proof.
  unfold registerBufferSync.
  assert (Hgen : forall reg,
            factory reg = create -> items reg !! d = None ->
            (forall doc, doc ∈ opened -> bufnr doc = d -> create doc = None) ->
            items (foldl (fun reg doc => on_open doc reg) reg opened) !! d = None).
  { induction opened as [|doc opened IH]; intros reg Hf Hd Hdecl; [exact Hd|].
    cbn [foldl]. apply IH.
    - unfold on_open. destruct (factory reg doc); [cbn; exact Hf | exact Hf].
    - unfold on_open. rewrite Hf.
      destruct (create doc) as [item|] eqn:Hmade; [|exact Hd].
      cbn. rewrite lookup_insert_ne; [exact Hd|].
      intros Heq. rewrite (Hdecl doc) in Hmade; [discriminate | left | exact Heq].
    - intros doc' Hin. apply Hdecl. right. exact Hin. }
  intros Hdecl. apply Hgen; [reflexivity | apply lookup_empty | exact Hdecl].
Qed.

(** A registry that is not among those the close is delivered to shows
    nothing. *)
Lemma close_document_elsewhere r d closed regs :
  r ∉ (id <$> regs) -> about r d (close_document closed regs).2 = [].
Proof.
  induction regs as [|reg regs IH]; [reflexivity|].
  rewrite fmap_cons. intros Hout.
  apply not_elem_of_cons in Hout as [Hne Hout].
  cbn [close_document].
  pose proof (on_close_elsewhere r d closed reg (or_introl (not_eq_sym Hne))) as Hhead.
  destruct (on_close closed reg) as [reg' seen].
  specialize (IH Hout).
  destruct (close_document closed regs) as [regs' seen'].
  cbn [snd] in *. rewrite about_app, Hhead, IH. reflexivity.
Qed.

Lemma close_document_clears closed regs :
  Forall (fun r => items r !! closed = None) (close_document closed regs).1.
Proof.
  induction regs as [|reg regs IH]; [constructor|].
  cbn [close_document].
  pose proof (on_close_items closed reg) as Hitems.
  destruct (on_close closed reg) as [reg' seen].
  destruct (close_document closed regs) as [regs' seen'].
  cbn [fst] in *. constructor; [|exact IH].
  rewrite Hitems. apply lookup_delete_eq.
Qed.

(** C7. A close event that finds an entry for the document invokes the
    teardown of the item, when the item has one, while the entry is still
    stored, and then removes the entry, leaving the entries of other
    documents alone; a close event that finds no entry, as when the factory
    declined the document, changes nothing and shows nothing.  Over any run
    of close events that closes the document, in whatever position among the
    closes of other documents and however often, what is seen about the
    document is this teardown once and after it this removal once, and the
    entry is gone at the end.  The same is seen of every registry the close
    event is delivered to that holds an entry, and afterwards none of them
    holds one. *)
Theorem close_removes_entry_once reg d item :
  items reg !! d = Some item ->
  let shown r it :=
    (if has_teardown it then [TornDown r d true] else []) ++ [Removed r d] in
  (on_close d reg).2 = shown (id reg) item
  /\ items (on_close d reg).1 !! d = None
  /\ (forall d', d' <> d -> items (on_close d reg).1 !! d' = items reg !! d')
  /\ (forall fresh create opened,
        (forall doc, doc ∈ opened -> bufnr doc = d -> create doc = None) ->
        on_close d (registerBufferSync fresh create opened)
        = (registerBufferSync fresh create opened, []))
  /\ (forall earlier later,
        d ∉ earlier ->
        items (close_all (earlier ++ d :: later) reg).1 !! d = None /\
        about (id reg) d (close_all (earlier ++ d :: later) reg).2
          = shown (id reg) item)
  /\ (forall regs,
        Forall (fun r => items r !! d = None) (close_document d regs).1 /\
        forall r it,
          NoDup (id <$> regs) -> r ∈ regs -> items r !! d = Some it ->
          about (id r) d (close_document d regs).2 = shown (id r) it).
Proof.
  intros Hd shown. split; [|split; [|split; [|split; [|split]]]].
  - apply on_close_stored, Hd.
  - rewrite on_close_items. apply lookup_delete_eq.
  - intros d' Hne. rewrite on_close_items. apply lookup_delete_ne. congruence.
  - intros fresh create opened Hdecl.
    apply on_close_absent, declined_has_no_entry, Hdecl.
  - induction earlier as [|c earlier IH] in reg, Hd |- *; intros later Hfirst.
    + cbn [app close_all].
      pose proof (on_close_stored d reg item Hd) as Hshown.
      pose proof (on_close_concerns d reg) as Hmine.
      pose proof (on_close_id d reg) as Hid.
      pose proof (on_close_items d reg) as Hitems.
      destruct (on_close d reg) as [reg1 seen1]. cbn [fst snd] in *.
      assert (Hd1 : items reg1 !! d = None)
        by (rewrite Hitems; apply lookup_delete_eq).
      destruct (close_all_absent later reg1 d Hd1) as [Hgone Hnone].
      destruct (close_all later reg1) as [reg2 seen2]. cbn [fst snd] in *.
      split; [exact Hgone|]. rewrite Hid in Hnone.
      rewrite about_app, (about_all _ _ _ Hmine), Hnone, app_nil_r.
      exact Hshown.
    + apply not_elem_of_cons in Hfirst as [Hne Hfirst].
      cbn [app close_all].
      pose proof (on_close_elsewhere (id reg) d c reg (or_intror (not_eq_sym Hne)))
        as Hquiet.
      pose proof (on_close_id c reg) as Hid.
      pose proof (on_close_items c reg) as Hitems.
      destruct (on_close c reg) as [reg1 seen1]. cbn [fst snd] in *.
      assert (Hd1 : items reg1 !! d = Some item)
        by (rewrite Hitems, lookup_delete_ne by congruence; exact Hd).
      destruct (IH reg1 Hd1 later Hfirst) as [Hgone Hone].
      destruct (close_all (earlier ++ d :: later) reg1) as [reg2 seen2].
      cbn [fst snd] in *. split; [exact Hgone|]. rewrite Hid in Hone.
      rewrite about_app, Hquiet. exact Hone.
  - intros regs. split; [apply close_document_clears|].
    induction regs as [|reg0 regs IH]; intros r it Hids Hin Hentry.
    + inversion Hin.
    + rewrite fmap_cons in Hids. apply NoDup_cons in Hids as [Hfresh Hids].
      cbn [close_document].
      apply elem_of_cons in Hin as [->|Hin].
      * pose proof (on_close_stored d reg0 it Hentry) as Hshown.
        pose proof (on_close_concerns d reg0) as Hmine.
        pose proof (close_document_elsewhere (id reg0) d d regs Hfresh) as Hrest.
        destruct (on_close d reg0) as [reg' seen].
        destruct (close_document d regs) as [regs' seen'].
        cbn [fst snd] in *.
        rewrite about_app, (about_all _ _ _ Hmine), Hrest, app_nil_r.
        exact Hshown.
      * assert (Hne : id reg0 <> id r).
        { intros Heq. apply Hfresh. rewrite Heq.
          apply list_elem_of_fmap. exists r. split; [reflexivity | exact Hin]. }
        pose proof (on_close_elsewhere (id r) d d reg0 (or_introl Hne)) as Hquiet.
        specialize (IH r it Hids Hin Hentry).
        destruct (on_close d reg0) as [reg' seen].
        destruct (close_document d regs) as [regs' seen'].
        cbn [fst snd] in *. rewrite about_app, Hquiet. exact IH.
Qed.

End Registries.

Lemma close_removes_entry_once_witness :
  BufferSync.items Sample.registry !! 1
    = Some {| BufferSync.state := JObj [("opened", JBool true)];
              BufferSync.has_teardown := true |} /\
  BufferSync.items Sample.registry !! 2 = None /\
  BufferSync.items (BufferSync.close_all [2; 1; 2; 1] Sample.registry).1 !! 1
    = None /\
  BufferSync.about 1%positive 1
    (BufferSync.close_all [2; 1; 2; 1] Sample.registry).2
  = [BufferSync.TornDown 1%positive 1 true; BufferSync.Removed 1%positive 1].
Proof.
  assert (Hentry : BufferSync.items Sample.registry !! 1
            = Some {| BufferSync.state := JObj [("opened", JBool true)];
                      BufferSync.has_teardown := true |})
    by (vm_compute; reflexivity).
  split; [exact Hentry|]. split; [vm_compute; reflexivity|].
  pose proof (close_removes_entry_once Sample.registry 1 _ Hentry)
    as (_ & _ & _ & _ & Hruns & _).
  apply (Hruns [2] [2; 1]).
  intros Hin. apply list_elem_of_singleton in Hin. discriminate Hin.
Defined.

(** ** Paths *)

Lemma normalize_truthy p : Str.truthy (Path.normalize p) = true.
Proof.
  unfold Path.normalize. destruct p as [|c p]; [reflexivity|].
  destruct (Path.normalize_string (String c p) _) as [|b body].
  - destruct (Path.is_absolute _); [reflexivity|].
    destruct (Path.ends_with_sep _); reflexivity.
  - destruct (Path.is_absolute _); [reflexivity|].
    destruct (Path.ends_with_sep _); reflexivity.
Qed.

(** With the variable set, the home directory is its normalized value; the
    alternative after [||] is never taken, since [path.normalize] returns no
    empty string. *)
Lemma constructor_with_COC_VIMCONFIG VERSION CONFIG_FILE_NAME p ev dir :
  COC_VIMCONFIG p = Some dir ->
  exists ws,
    constructor VERSION CONFIG_FILE_NAME p ev = Ok ws /\
    userConfigFile (configurations ws)
      = Path.join [Path.normalize dir; CONFIG_FILE_NAME].
Proof.
  intros Hset. unfold constructor. rewrite Hset. cbn [normalize_env_value].
  rewrite normalize_truthy. eexists. split; reflexivity.
Qed.

(** C8, where the code departs from it.  With [COC_VIMCONFIG] set, the
    configuration file is the fixed file name under the normalized value of
    the variable.  Without it the constructor does not fall back to [.vim]
    under the home directory: [path.normalize(undefined)] throws before [||]
    is reached, and no configuration path is computed at all. *)
Theorem constructor_home_directory VERSION CONFIG_FILE_NAME p ev :
  match COC_VIMCONFIG p with
  | Some dir =>
      exists ws,
        constructor VERSION CONFIG_FILE_NAME p ev = Ok ws /\
        userConfigFile (configurations ws)
          = Path.join [Path.normalize dir; CONFIG_FILE_NAME]
  | None =>
      constructor VERSION CONFIG_FILE_NAME p ev
      = Throw (TypeError
          "The 'path' argument must be of type string. Received undefined")
  end.
Proof.
  destruct (COC_VIMCONFIG p) as [dir|] eqn:Hvar.
  - apply constructor_with_COC_VIMCONFIG, Hvar.
  - unfold constructor. rewrite Hvar. reflexivity.
Qed.

(** Outside tests the root is the parent directory of the snapshot's
    [extensionRoot] ([path.dirname]); the comment of the method says "at
    extension root". *)
Lemma createDatabase_outside_tests host p name w e :
  has_TEST p = false ->
  _env w = Some e ->
  createDatabase host p name w =
  (Ok {| filepath :=
           Path.join [Path.dirname (extensionRoot e); name +:+ ".json"] |}, w).
Proof.
  intros Hplain Henv.
  unfold createDatabase, bind, this_env, ret. rewrite Hplain, Henv. reflexivity.
Qed.

(** C9, as the code has it.  The backing file is [<name>.json] joined onto
    a root directory.  Under the test flag that root is [coc-<pid>] in the
    temporary directory, which is created first, and the snapshot plays no
    part; otherwise the call needs the snapshot and throws without one. *)
Theorem createDatabase_path host p name w :
  if has_TEST p then
    let root := Path.join [tmpdir p; "coc-" +:+ pretty (pid p)] in
    let made := call Fs "mkdirpSync" [VStr root] in
    createDatabase host p name w =
    match outcome host (trace w) made with
    | None =>
        (Ok {| filepath := Path.join [root; name +:+ ".json"] |},
         record_call made w)
    | Some x => (Throw x, record_call made w)
    end
  else
    match _env w with
    | Some e =>
        exists root,
          createDatabase host p name w =
          (Ok {| filepath := Path.join [root; name +:+ ".json"] |}, w)
    | None =>
        createDatabase host p name w =
        (Throw (TypeError
           "Cannot read properties of undefined (reading 'extensionRoot')"), w)
    end.
Proof.
  destruct (has_TEST p) eqn:Hmode.
  - unfold createDatabase, bind, perform, ret. rewrite Hmode.
    destruct (outcome host (trace w) _); reflexivity.
  - destruct (_env w) as [e|] eqn:Henv.
    + eexists. apply createDatabase_outside_tests; eassumption.
    + unfold createDatabase, bind, this_env. rewrite Hmode, Henv. reflexivity.
Qed.

(** C9, as stated, fails: the file of the store [memos] is a sibling of the
    extension directory in normal operation and lies in the temporary
    directory under the test flag; in neither case is it below
    [extensionRoot]. *)
Lemma createDatabase_not_below_extensionRoot :
  let host := Sample.quiet_host Sample.current_env in
  extensionRoot Sample.current_env = "/home/u/.config/coc/extensions"
  /\ _env Sample.ready = Some Sample.current_env
  /\ (createDatabase host Sample.plain_process "memos" Sample.ready).1
     = Ok {| filepath := "/home/u/.config/coc/memos.json" |}
  /\ below (extensionRoot Sample.current_env) "/home/u/.config/coc/memos.json"
     = false
  /\ (createDatabase host Sample.test_process "memos" Sample.ready).1
     = Ok {| filepath := "/tmp/coc-4242/memos.json" |}
  /\ below (extensionRoot Sample.current_env) "/tmp/coc-4242/memos.json"
     = false
  /\ Path.join [extensionRoot Sample.current_env; "memos" +:+ ".json"]
     = "/home/u/.config/coc/extensions/memos.json".
Proof. cbv zeta. repeat split; vm_compute; reflexivity. Qed.

(** ** Getters *)

(** C10. [rootPath] gives what [root] gives, and [root] gives the root of
    the document manager unless that is the empty string, in which case it
    gives the current working directory. *)
Theorem rootPath_is_root w :
  rootPath w = root w
  /\ root w =
     (Ok (if decide (docs_root (docs w) = "") then docs_cwd (docs w)
          else docs_root (docs w)), w)
  /\ cwd w = (Ok (docs_cwd (docs w)), w).
Proof.
  split; [reflexivity|]. split; [|reflexivity].
  unfold root, cwd. destruct (docs_root (docs w)) as [|c r]; reflexivity.
Qed.


(** * Further properties of the class *)

(** ** [init], beyond the first successful run *)

Lemma install_keeps_others window names : forall w r w' name,
  for_of names (fun m => defineProperty m window) w = (r, w') ->
  name ∉ names ->
  accessors w' !! name = accessors w !! name.
Proof.
  induction names as [|m names IH]; intros w r w' name Hrun Hout.
  - cbn in Hrun. injection Hrun as <- <-. reflexivity.
  - apply not_elem_of_cons in Hout as [Hne Hout].
    cbn [for_of] in Hrun. unfold bind, defineProperty in Hrun.
    destruct (accessors w !! m) eqn:Hm.
    + injection Hrun as <- <-. reflexivity.
    + rewrite (IH _ _ _ name Hrun Hout). cbn.
      apply lookup_insert_ne. congruence.
Qed.

(** X1. The accessors that [init] defines with [Object.defineProperty] are
    the seventeen deprecated names, no more and no fewer: after a run that
    returned, each of the seventeen is an accessor bound to the window that
    [init] was given, and under every other name the table of accessors is
    as it was before the run. *)
Theorem init_defines_only_methods host window w w' name :
  init host window w = (Ok tt, w') ->
  accessors w' !! name =
  if bool_decide (name ∈ methods) then Some window else accessors w !! name.
Proof.
  intros Hrun. destruct (bool_decide (name ∈ methods)) eqn:Hname.
  - apply bool_decide_eq_true_1 in Hname.
    exact (init_installs_shim host window w w' name Hrun Hname).
  - apply bool_decide_eq_false_1 in Hname.
    rewrite init_steps in Hrun.
    destruct (for_of methods _ w) as [[[]|x] w1] eqn:Hshim; [|discriminate].
    pose proof (install_keeps_others _ _ _ _ _ name Hshim Hname) as Hkeep.
    destruct (vim_info host (trace w1)) as [e|x]; [|discriminate].
    apply for_of_perform in Hrun as (_ & Ha & _ & _).
    cbn [accessors] in Ha. rewrite Ha. exact Hkeep.
Qed.

Lemma init_defines_only_methods_witness :
  let w' := (init (Sample.quiet_host Sample.current_env) 1%positive Sample.blank).2 in
  accessors w' !! "selectRange" = Some 1%positive /\
  accessors w' !! "showInformationMessage" = None.
Proof.
  intros w'.
  assert (Hrun : init (Sample.quiet_host Sample.current_env) 1%positive
                   Sample.blank = (Ok tt, w')) by (vm_compute; reflexivity).
  split.
  - exact (init_defines_only_methods _ _ _ _ "selectRange" Hrun).
  - exact (init_defines_only_methods _ _ _ _ "showInformationMessage" Hrun).
Defined.

Lemma init_on_shimmed_object host window w win0 :
  accessors w !! "showMessage" = Some win0 ->
  init host window w =
  (Throw (TypeError "Cannot redefine property: showMessage"), w).
Proof.
  intros Hbound. unfold init, methods. cbn [for_of]. unfold bind at 1 2.
  unfold defineProperty at 1. rewrite Hbound. reflexivity.
Qed.

(** X2. [init] works once per object.  After a run that returned, any further
    [init] on the same object, with whatever window and host, throws a
    TypeError at the first deprecated name, before the handshake RPC: no call
    is made and nothing changes. *)
Theorem init_again_throws host window w0 w host' window' :
  init host window w0 = (Ok tt, w) ->
  init host' window' w =
  (Throw (TypeError "Cannot redefine property: showMessage"), w).
Proof.
  intros Hfirst. apply (init_on_shimmed_object host' window' w window).
  apply (init_installs_shim host window w0 w _ Hfirst).
  unfold methods. set_solver.
Qed.

Lemma init_again_throws_witness :
  let w := (init (Sample.quiet_host Sample.current_env) 1%positive Sample.blank).2 in
  init (Sample.quiet_host Sample.old_env) 2%positive w =
  (Throw (TypeError "Cannot redefine property: showMessage"), w).
Proof.
  intros w.
  apply (init_again_throws (Sample.quiet_host Sample.current_env) 1%positive
           Sample.blank w).
  vm_compute. reflexivity.
Defined.

(** X3. When the handshake RPC is rejected on a fresh object, [init] throws the
    rejection having made that one call; no snapshot is stored, but the shim
    stays installed, so a retry of [init] on the object throws a TypeError
    instead of repeating the handshake. *)
Theorem init_rpc_failure host window w x :
  (forall m, m ∈ methods -> accessors w !! m = None) ->
  vim_info host (trace w) = Throw x ->
  let left_behind :=
    {| trace := trace w ++ [vim_info_call]; _env := _env w;
       accessors := installed window methods (accessors w);
       docs := docs w |} in
  init host window w = (Throw x, left_behind)
  /\ forall host' window',
       init host' window' left_behind =
       (Throw (TypeError "Cannot redefine property: showMessage"), left_behind).
Proof.
  intros Hfresh Hrpc left_behind. split.
  - rewrite init_steps, (install_fresh window methods w methods_NoDup Hfresh).
    cbn [trace]. rewrite Hrpc. reflexivity.
  - intros host' window'.
    apply (init_on_shimmed_object host' window' left_behind window).
    cbn [accessors left_behind]. apply installed_lookup.
    unfold methods. set_solver.
Qed.

Lemma init_rpc_failure_witness :
  (forall m, m ∈ methods -> accessors Sample.blank !! m = None) /\
  (init Scenario.deaf_host 1%positive Sample.blank).1
    = Throw (Raised vim_info_call (JStr "channel closed")) /\
  trace (init Scenario.deaf_host 1%positive Sample.blank).2 = [vim_info_call] /\
  (init (Sample.quiet_host Sample.current_env) 1%positive
     (init Scenario.deaf_host 1%positive Sample.blank).2).1
    = Throw (TypeError "Cannot redefine property: showMessage").
Proof.
  assert (Hfresh : forall m, m ∈ methods -> accessors Sample.blank !! m = None)
    by (intros m _; apply lookup_empty).
  split; [exact Hfresh|].
  destruct (init_rpc_failure Scenario.deaf_host 1%positive Sample.blank _
              Hfresh eq_refl) as [Hrun Hretry].
  rewrite Hrun. cbn [fst snd trace app Sample.blank].
  split; [reflexivity|]. split; [reflexivity|].
  rewrite Hretry. reflexivity.
Defined.

Lemma reset_run host w :
  reset host w =
  for_of [call WorkspaceFolderControl "reset" []; call DocumentsManager "reset" []]
    (perform host) w.
Proof.
  unfold reset. cbn [for_of]. unfold bind, perform.
  repeat (match goal with
          | |- context [outcome host ?t ?c] => destruct (outcome host t c)
          end; try reflexivity).
Qed.

(** X4. [reset] calls [workspaceFolderControl.reset] and then, when that
    returned, [documentsManager.reset], and makes no other call; it changes
    nothing of the object itself, the stored snapshot and the shim stay.  So
    [reset] does not make an object ready for a new [init]: after [init] and
    [reset], [init] throws the TypeError of a second [init]. *)
Theorem reset_does_not_allow_init host window w0 w host1 host2 window2 :
  init host window w0 = (Ok tt, w) ->
  let cleared := (reset host1 w).2 in
  added w cleared =
    match outcome host1 (trace w) (call WorkspaceFolderControl "reset" []) with
    | None =>
        [call WorkspaceFolderControl "reset" []; call DocumentsManager "reset" []]
    | Some _ => [call WorkspaceFolderControl "reset" []]
    end
  /\ _env cleared = _env w
  /\ accessors cleared = accessors w
  /\ init host2 window2 cleared =
     (Throw (TypeError "Cannot redefine property: showMessage"), cleared).
Proof.
  intros Hfirst cleared.
  assert (Hcalls : added w cleared =
            match outcome host1 (trace w)
                    (call WorkspaceFolderControl "reset" []) with
            | None =>
                [call WorkspaceFolderControl "reset" [];
                 call DocumentsManager "reset" []]
            | Some _ => [call WorkspaceFolderControl "reset" []]
            end).
  { unfold cleared, reset, bind, perform, added.
    destruct (outcome host1 (trace w) _); cbn [snd trace record_call];
      [apply drop_app_length|].
    match goal with
    | |- context [outcome host1 ?t ?c] => destruct (outcome host1 t c)
    end; cbn [snd trace record_call];
      rewrite <- app_assoc; apply drop_app_length. }
  assert (Hkept : _env cleared = _env w /\ accessors cleared = accessors w).
  { unfold cleared. rewrite reset_run.
    destruct (for_of _ (perform host1) w) as [r w'] eqn:Hrun.
    apply for_of_perform in Hrun as (He & Ha & _ & _). split; assumption. }
  destruct Hkept as [He Ha].
  split; [exact Hcalls|]. split; [exact He|]. split; [exact Ha|].
  apply (init_on_shimmed_object host2 window2 cleared window).
  rewrite Ha. apply (init_installs_shim host window w0 w _ Hfirst).
  unfold methods. set_solver.
Qed.

Lemma reset_does_not_allow_init_witness :
  let host := Sample.quiet_host Sample.current_env in
  let w := (init host 1%positive Sample.blank).2 in
  let cleared := (reset host w).2 in
  added w cleared =
    [call WorkspaceFolderControl "reset" []; call DocumentsManager "reset" []] /\
  _env cleared = Some Sample.current_env /\
  init host 1%positive cleared =
  (Throw (TypeError "Cannot redefine property: showMessage"), cleared).
Proof.
  intros host w cleared.
  assert (Hfirst : init host 1%positive Sample.blank = (Ok tt, w))
    by (vm_compute; reflexivity).
  destruct (reset_does_not_allow_init host 1%positive Sample.blank w
              host host 1%positive Hfirst) as (Hcalls & He & _ & Hagain).
  split; [exact Hcalls|]. split; [|exact Hagain].
  fold cleared in He. rewrite He. vm_compute. reflexivity.
Defined.

(** X5. When a seeding or attach step throws, [init] throws the same exception
    and stops there: the calls made are the handshake RPC, the diagnostic if
    any, and the steps up to the one that threw, none after it.  The
    snapshot is stored and the shim installed all the same. *)
Theorem init_aborts_at_failing_step host window w e x :
  (forall m, m ∈ methods -> accessors w !! m = None) ->
  vim_info host (trace w) = Ok e ->
  (init host window w).1 = Throw x ->
  _env (init host window w).2 = Some e
  /\ accessors (init host window w).2 = installed window methods (accessors w)
  /\ exists before c after,
       seeding_calls e ++ attach_calls e = before ++ c :: after /\
       trace (init host window w).2 =
         trace w ++ vim_info_call ::
           (if apiversion e =? APIVERSION then []
            else [echoError_call (apiversion e)]) ++ before ++ [c] /\
       outcome host
         (trace w ++ vim_info_call ::
            (if apiversion e =? APIVERSION then []
             else [echoError_call (apiversion e)]) ++ before) c = Some x.
Proof.
  intros Hfresh Hrpc.
  rewrite init_steps, (install_fresh window methods w methods_NoDup Hfresh).
  cbn [trace accessors docs]. rewrite Hrpc.
  match goal with
  | |- context [for_of ?cs (perform host) ?w0] =>
      destruct (for_of cs (perform host) w0) as [r w'] eqn:Hrun
  end.
  apply for_of_perform in Hrun as (He & Ha & _ & Hcases).
  cbn [fst snd trace _env accessors] in *. intros ->.
  destruct Hcases as [(Hok & _) | (before & c & after & x' & Hsplit & Hx & Ht & Hc)];
    [discriminate Hok|].
  injection Hx as <-. repeat split; [exact He | exact Ha |].
  exists before, c, after. split; [exact Hsplit|]. split.
  - rewrite Ht, <- app_assoc. reflexivity.
  - rewrite <- app_assoc in Hc. exact Hc.
Qed.

Lemma init_aborts_at_failing_step_witness :
  (forall m, m ∈ methods -> accessors Sample.blank !! m = None) /\
  (init Scenario.keymap_failing_host 1%positive Sample.blank).1
    = Throw (Raised (call KeymapsSvc "attach" [VNvim]) (JStr "no keymaps")) /\
  _env (init Scenario.keymap_failing_host 1%positive Sample.blank).2
    = Some Sample.old_env.
Proof.
  assert (Hfresh : forall m, m ∈ methods -> accessors Sample.blank !! m = None)
    by (intros m _; apply lookup_empty).
  assert (Hthrow : (init Scenario.keymap_failing_host 1%positive Sample.blank).1
            = Throw (Raised (call KeymapsSvc "attach" [VNvim]) (JStr "no keymaps")))
    by (vm_compute; reflexivity).
  split; [exact Hfresh|]. split; [exact Hthrow|].
  exact (proj1 (init_aborts_at_failing_step Scenario.keymap_failing_host
                  1%positive Sample.blank Sample.old_env _ Hfresh eq_refl Hthrow)).
Defined.

Lemma diagnostics_app t t' :
  diagnostics (t ++ t') = (diagnostics t + diagnostics t')%nat.
Proof. unfold diagnostics. rewrite filter_app, length_app. reflexivity. Qed.

Lemma diagnostics_none t :
  Forall (fun c => is_echoError c = false) t -> diagnostics t = 0%nat.
Proof.
  unfold diagnostics. induction 1 as [|c t Hc _ IH]; [reflexivity|].
  rewrite filter_cons_False by congruence. exact IH.
Qed.

Lemma steps_are_no_diagnostics e :
  Forall (fun c => is_echoError c = false) (seeding_calls e ++ attach_calls e).
Proof. repeat constructor. Qed.

(** X6. Once the handshake RPC has answered, a run of [init] hands
    [nvim.echoError] exactly one line when the reported version is not 17 and
    none when it is, whether the run then returns or throws at a later
    step. *)
Theorem init_diagnostic_count host window w e :
  (forall m, m ∈ methods -> accessors w !! m = None) ->
  vim_info host (trace w) = Ok e ->
  diagnostics (trace (init host window w).2) =
  (diagnostics (trace w) +
   if (apiversion e =? APIVERSION)%Z then 0 else 1)%nat.
Proof.
  intros Hfresh Hrpc.
  rewrite init_steps, (install_fresh window methods w methods_NoDup Hfresh).
  cbn [trace accessors docs]. rewrite Hrpc.
  match goal with
  | |- context [for_of ?cs (perform host) ?w0] =>
      destruct (for_of cs (perform host) w0) as [r w'] eqn:Hrun
  end.
  apply for_of_perform in Hrun as (_ & _ & _ & Hcases).
  cbn [snd trace] in *.
  assert (Hmade : exists made,
            trace w' = (trace w ++ vim_info_call ::
                          (if apiversion e =? APIVERSION then []
                           else [echoError_call (apiversion e)])) ++ made /\
            Forall (fun c => is_echoError c = false) made).
  { pose proof (steps_are_no_diagnostics e) as Hsteps.
    destruct Hcases as [(_ & Ht & _) | (before & c & after & x & Hsplit & _ & Ht & _)].
    - eexists. split; [exact Ht | exact Hsteps].
    - exists (before ++ [c]). split; [exact Ht|].
      rewrite Hsplit in Hsteps. apply Forall_app in Hsteps as [Hb Hc].
      apply Forall_cons in Hc as [Hc _].
      apply Forall_app. split; [exact Hb | repeat constructor; exact Hc]. }
  destruct Hmade as (made & -> & Hquiet).
  rewrite !diagnostics_app, (diagnostics_none made Hquiet), Nat.add_0_r.
  f_equal. destruct (apiversion e =? APIVERSION); reflexivity.
Qed.

Lemma init_diagnostic_count_witness :
  (forall m, m ∈ methods -> accessors Sample.blank !! m = None) /\
  diagnostics
    (trace (init (Sample.quiet_host Sample.current_env) 1%positive Sample.blank).2)
    = 0%nat /\
  diagnostics
    (trace (init Scenario.keymap_failing_host 1%positive Sample.blank).2)
    = 1%nat.
Proof.
  assert (Hfresh : forall m, m ∈ methods -> accessors Sample.blank !! m = None)
    by (intros m _; apply lookup_empty).
  split; [exact Hfresh|]. split.
  - exact (init_diagnostic_count (Sample.quiet_host Sample.current_env)
             1%positive Sample.blank Sample.current_env Hfresh eq_refl).
  - exact (init_diagnostic_count Scenario.keymap_failing_host
             1%positive Sample.blank Sample.old_env Hfresh eq_refl).
Defined.


(** ** Getters and requests *)

(** X7. After a run of [init] that returned, the getters answer from the
    snapshot the editor sent in that handshake: [env] is that snapshot,
    [isNvim] is the negation of [isVim], and [floatSupported] holds when the
    snapshot reports floating windows or text properties. *)
Theorem getters_after_init host window w w' :
  init host window w = (Ok tt, w') ->
  exists e,
    vim_info host (trace w) = Ok e /\
    Getters.env w' = (Ok (Some e), w') /\
    Getters.isVim w' = (Ok (isVim e), w') /\
    Getters.isNvim w' = (Ok (negb (isVim e)), w') /\
    Getters.floatSupported w' = (Ok (floating e || textprop e), w') /\
    Getters.completeOpt w' = (Ok (completeOpt e), w').
Proof.
  intros Hrun. rewrite init_steps in Hrun.
  destruct (for_of methods _ w) as [[[]|x] w1] eqn:Hshim; [|discriminate].
  apply install_any in Hshim as (Ht & _ & _ & _). rewrite Ht in Hrun.
  destruct (vim_info host (trace w)) as [e|x]; [|discriminate].
  apply for_of_perform in Hrun as (He & _ & _ & _). cbn [_env] in He.
  exists e. split; [reflexivity|].
  unfold Getters.env, Getters.isVim, Getters.isNvim, Getters.floatSupported,
    Getters.completeOpt, bind, this_env, ret.
  rewrite He. repeat split. destruct (floating e); [reflexivity|].
  rewrite He. reflexivity.
Qed.

Lemma getters_after_init_witness :
  let w' := (init (Sample.quiet_host Sample.old_env) 1%positive Sample.blank).2 in
  Getters.isNvim w' = (Ok true, w') /\
  Getters.floatSupported w' = (Ok true, w').
Proof.
  intros w'.
  assert (Hrun : init (Sample.quiet_host Sample.old_env) 1%positive Sample.blank
                 = (Ok tt, w')) by (vm_compute; reflexivity).
  destruct (getters_after_init _ _ _ _ Hrun)
    as (e & He & _ & _ & Hnvim & Hfloat & _).
  injection He as <-. split; [exact Hnvim | exact Hfloat].
Defined.

(** X8. [callAsync] sends one request and returns its reply as it is: under
    Neovim the method itself through [nvim.call], under Vim never the method
    itself but [coc#util#with_callback] with the method and its arguments,
    through [nvim.callAsync].  Before a snapshot is stored it throws a
    TypeError and sends nothing. *)
Theorem callAsync_one_request editor method args w :
  match _env w with
  | Some e =>
      let sent :=
        if isVim e
        then call Nvim "callAsync"
               [VStr "coc#util#with_callback";
                VJson (JArr [JStr method; JArr args])]
        else call Nvim "call" [VStr method; VJson (JArr args)] in
      (callAsync editor method args w).1
        = Editing.rpc_reply editor (trace w) sent /\
      added w (callAsync editor method args w).2 = [sent]
  | None =>
      callAsync editor method args w =
      (Throw (TypeError "Cannot read properties of undefined (reading 'isVim')"),
       w)
  end.
Proof.
  unfold callAsync, Getters.isNvim, bind, this_env, ret, request, added.
  destruct (_env w) as [e|]; [|reflexivity].
  destruct (isVim e); cbn [negb fst snd record_call trace];
    rewrite drop_app_length; split; reflexivity.
Qed.

(** X9. Without a current document [getCurrentState] never returns a state:
    it still asks for the cursor position, and then throws, the TypeError of
    reading [textDocument] of [undefined] when the position arrived, the
    rejection of the position request otherwise. *)
Theorem getCurrentState_without_document editor w :
  Editing.current_document editor (trace w) = Ok None ->
  let asked := trace w ++ [call DocumentsManager "document" []] in
  trace (getCurrentState editor w).2
    = asked ++ [call Nvim "ui.getCursorPosition" [VNvim]]
  /\ (getCurrentState editor w).1 =
     match Editing.cursor_position editor asked with
     | Ok _ =>
         Throw (TypeError
           "Cannot read properties of undefined (reading 'textDocument')")
     | Throw x => Throw x
     end.
Proof.
  intros Hnone asked.
  unfold getCurrentState, bind, this_document, ui_getCursorPosition.
  rewrite Hnone. cbn [trace record_call]. fold asked.
  destruct (Editing.cursor_position editor asked); split; reflexivity.
Qed.

Lemma getCurrentState_without_document_witness :
  getCurrentState Scenario.empty_editor Sample.ready =
  (Throw (TypeError
     "Cannot read properties of undefined (reading 'textDocument')"),
   record_call (call Nvim "ui.getCursorPosition" [VNvim])
     (record_call (call DocumentsManager "document" []) Sample.ready)).
Proof.
  destruct (getCurrentState_without_document Scenario.empty_editor Sample.ready
              eq_refl) as [Htrace Hresult].
  destruct (getCurrentState Scenario.empty_editor Sample.ready) as [r w'] eqn:Hrun.
  cbn [fst snd] in *. subst r.
  vm_compute in Hrun. injection Hrun as <-. reflexivity.
Defined.

(** X10. With a current document and a cursor position, [getCurrentState]
    returns the text document of that document with that position, having
    asked for the document first and the position second. *)
Theorem getCurrentState_with_document editor w d p :
  Editing.current_document editor (trace w) = Ok (Some d) ->
  Editing.cursor_position editor
    (trace w ++ [call DocumentsManager "document" []]) = Ok p ->
  (getCurrentState editor w).1
    = Ok {| Editing.document := Editing.textDocument d;
            Editing.position := p |}
  /\ added w (getCurrentState editor w).2
     = [call DocumentsManager "document" [];
        call Nvim "ui.getCursorPosition" [VNvim]].
Proof.
  intros Hdoc Hpos.
  unfold getCurrentState, bind, this_document, ui_getCursorPosition, added.
  rewrite Hdoc. cbn [trace record_call]. rewrite Hpos.
  cbn [fst snd ret trace record_call]. split; [reflexivity|].
  rewrite <- app_assoc, drop_app_length. reflexivity.
Qed.

Lemma getCurrentState_with_document_witness :
  (getCurrentState Scenario.busy_editor Sample.ready).1
  = Ok {| Editing.document :=
            {| Editing.td_uri := "file:///work/app/a.ts";
               Editing.td_version := 4 |};
          Editing.position := {| Editing.line := 3; Editing.character := 7 |} |}.
Proof.
  exact (proj1 (getCurrentState_with_document Scenario.busy_editor Sample.ready
                  _ _ eq_refl eq_refl)).
Defined.

(** X11. [attach] fetches nothing: after [init], a [detach] followed by [attach]
    makes one call each, and the document manager is attached again with the
    snapshot that [init] stored, not with a new one. *)
Theorem reattach_uses_stored_snapshot host window w0 w host1 host2 :
  init host window w0 = (Ok tt, w) ->
  exists e,
    _env w = Some e /\
    added w (detach host1 w).2 = [call DocumentsManager "detach" []] /\
    added (detach host1 w).2 (attach host2 (detach host1 w).2).2
      = [call DocumentsManager "attach" [VNvim; VEnv e]].
Proof.
  intros Hrun. rewrite init_steps in Hrun.
  destruct (for_of methods _ w0) as [[[]|x] w1] eqn:Hshim; [|discriminate].
  destruct (vim_info host (trace w1)) as [e|x]; [|discriminate].
  apply for_of_perform in Hrun as (He & _ & _ & _). cbn [_env] in He.
  exists e. split; [exact He|].
  unfold detach, attach, perform, added.
  destruct (outcome host1 (trace w) _); cbn [snd _env record_call trace];
    rewrite He, drop_app_length;
    (split; [reflexivity|]);
    match goal with
    | |- context [outcome host2 ?t ?c] => destruct (outcome host2 t c)
    end; cbn [snd trace record_call]; rewrite drop_app_length; reflexivity.
Qed.

Lemma reattach_uses_stored_snapshot_witness :
  let host := Sample.quiet_host Sample.current_env in
  let w := (init host 1%positive Sample.blank).2 in
  added (detach host w).2 (attach host (detach host w).2).2
    = [call DocumentsManager "attach" [VNvim; VEnv Sample.current_env]].
Proof.
  intros host w.
  assert (Hrun : init host 1%positive Sample.blank = (Ok tt, w))
    by (vm_compute; reflexivity).
  destruct (reattach_uses_stored_snapshot host 1%positive Sample.blank w
              host host Hrun) as (e & He & _ & Hattach).
  vm_compute in He. injection He as <-. exact Hattach.
Defined.

(** ** Shutdown and construction *)

(** X12. [dispose] leaves four collaborators alone: no call of a run of
    [dispose] goes to the keymap registry, the location service, the file
    pipeline or the folder registry. *)
Theorem dispose_leaves_four_collaborators host w :
  Forall (fun c =>
            receiver c <> KeymapsSvc /\ receiver c <> LocationsSvc /\
            receiver c <> FilesSvc /\ receiver c <> WorkspaceFolderControl)
    (added w (dispose host w).2).
Proof.
  assert (Hall : Forall (fun c =>
            receiver c <> KeymapsSvc /\ receiver c <> LocationsSvc /\
            receiver c <> FilesSvc /\ receiver c <> WorkspaceFolderControl)
            dispose_calls)
    by (repeat constructor; discriminate).
  rewrite dispose_run. unfold added.
  destruct (for_of dispose_calls (perform host) w) as [r w'] eqn:Hrun.
  apply for_of_perform in Hrun as (_ & _ & _ & Hcases). cbn [snd].
  destruct Hcases as [(_ & -> & _) | (before & c & after & x & Hsplit & _ & -> & _)];
    rewrite drop_app_length; [exact Hall|].
  rewrite Hsplit in Hall. apply Forall_app in Hall as [Hb Hc].
  apply Forall_cons in Hc as [Hc _].
  apply Forall_app. split; [exact Hb | repeat constructor; apply Hc].
Qed.

Lemma facade_place VERSION CONFIG_FILE_NAME p ev ws n :
  constructor VERSION CONFIG_FILE_NAME p ev = Ok ws ->
  event_objects ev !! place n = Some (Facade.on_facade ws n).
Proof.
  intros Hnew. unfold constructor in Hnew.
  destruct (normalize_env_value (COC_VIMCONFIG p)); [|discriminate].
  injection Hnew as <-. destruct n; reflexivity.
Qed.

(** X13. When the collaborators own sixteen different event objects, the sixteen
    facade fields are sixteen different objects: no two names of the facade
    are wired to one stream. *)
Theorem facade_fields_are_distinct VERSION CONFIG_FILE_NAME p ev ws n m :
  constructor VERSION CONFIG_FILE_NAME p ev = Ok ws ->
  NoDup (event_objects ev) ->
  Facade.on_facade ws n = Facade.on_facade ws m ->
  n = m.
Proof.
  intros Hnew Hdistinct Hsame.
  pose proof (facade_place _ _ _ _ _ n Hnew) as Hn.
  pose proof (facade_place _ _ _ _ _ m Hnew) as Hm.
  rewrite <- Hsame in Hm.
  pose proof (NoDup_lookup _ _ _ _ Hdistinct Hn Hm) as Hplace.
  destruct n, m; try reflexivity; discriminate Hplace.
Qed.

Lemma facade_fields_are_distinct_witness :
  exists ws,
    constructor "0.0.80" "coc-settings.json" Sample.plain_process Sample.events
      = Ok ws /\
    NoDup (event_objects Sample.events) /\
    Facade.on_facade ws Facade.DidOpenTextDocument
      <> Facade.on_facade ws Facade.DidCloseTextDocument.
Proof.
  destruct (constructor "0.0.80" "coc-settings.json" Sample.plain_process
              Sample.events) as [ws|] eqn:Hnew; [|discriminate Hnew].
  assert (Hdistinct : NoDup (event_objects Sample.events))
    by (apply (bool_decide_unpack _); vm_compute; exact I).
  exists ws. split; [reflexivity|]. split; [exact Hdistinct|].
  intros Hsame.
  discriminate (facade_fields_are_distinct _ _ _ _ _ _ _ Hnew Hdistinct Hsame).
Defined.

(** X14. The home directory of the user plays no part in the construction: with
    another [os.homedir()] the constructor gives the same object, or throws
    the same exception. *)
Theorem constructor_ignores_homedir VERSION CONFIG_FILE_NAME p ev home :
  constructor VERSION CONFIG_FILE_NAME (with_homedir home p) ev
  = constructor VERSION CONFIG_FILE_NAME p ev.
Proof.
  unfold constructor, with_homedir. cbn [COC_VIMCONFIG homedir].
  destruct (COC_VIMCONFIG p) as [dir|]; [|reflexivity].
  cbn [normalize_env_value]. rewrite normalize_truthy. reflexivity.
Qed.

(** X15. A stack text of at most three lines gives an excerpt of at most one
    line: a lone line break for one or two lines, the line break and the
    third line for three. *)
Theorem stack_excerpt_of_short_stack lines :
  lines <> [] ->
  Forall (fun l => Str.lacks (ascii_of_nat 10) l = true) lines ->
  (length lines <= 3)%nat ->
  stack_excerpt (Str.join Str.newline lines)
  = Str.newline +:+ default "" (lines !! 2%nat).
Proof.
  intros Hsome Hlines Hshort. unfold stack_excerpt.
  rewrite split_join_lines by assumption.
  destruct lines as [|l0 [|l1 [|l2 [|l3 more]]]];
    [congruence | reflexivity | reflexivity | reflexivity | cbn in Hshort; lia].
Qed.

Lemma stack_excerpt_of_short_stack_witness :
  stack_excerpt (Str.join Str.newline ["Error"; "    at repl:1:1"])
  = Str.newline.
Proof.
  apply (stack_excerpt_of_short_stack ["Error"; "    at repl:1:1"]);
    [discriminate | repeat constructor | cbn; lia].
Defined.

(** ** The file of a database *)

Lemma split_not_nil sep s : Str.split sep s <> [].
Proof.
  destruct s as [|c s]; cbn [Str.split]; [discriminate|].
  destruct (Ascii.eqb c sep); [discriminate|].
  destruct (Str.split sep s); discriminate.
Qed.

Lemma split_app_sep sep a b :
  Str.split sep (a +:+ String sep b) = Str.split sep a ++ Str.split sep b.
Proof.
  induction a as [|c a IH].
  - rewrite append_empty. cbn [Str.split]. rewrite Ascii.eqb_refl. reflexivity.
  - rewrite append_cons. cbn [Str.split]. rewrite IH.
    destruct (Ascii.eqb c sep); [reflexivity|].
    pose proof (split_not_nil sep a) as Hsome.
    destruct (Str.split sep a); [congruence | reflexivity].
Qed.

Lemma join_snoc sep pieces last :
  pieces <> [] ->
  Str.join sep (pieces ++ [last]) = Str.join sep pieces +:+ sep +:+ last.
Proof.
  induction pieces as [|x pieces IH]; [congruence|]. intros _.
  destruct pieces as [|y pieces]; [reflexivity|].
  change (Str.join sep ((x :: y :: pieces) ++ [last]))
    with (x +:+ sep +:+ Str.join sep ((y :: pieces) ++ [last])).
  rewrite IH by discriminate.
  change (Str.join sep (x :: y :: pieces))
    with (x +:+ sep +:+ Str.join sep (y :: pieces)).
  rewrite !append_assoc_str. reflexivity.
Qed.

Lemma lacks_app c a b :
  Str.lacks c (a +:+ b) = Str.lacks c a && Str.lacks c b.
Proof.
  induction a as [|x a IH]; [reflexivity|].
  rewrite append_cons. cbn [Str.lacks]. rewrite IH, andb_assoc. reflexivity.
Qed.

Lemma list_ascii_app a b :
  list_ascii_of_string (a +:+ b)
  = list_ascii_of_string a ++ list_ascii_of_string b.
Proof.
  induction a as [|x a IH]; [reflexivity|].
  rewrite append_cons. cbn [list_ascii_of_string app]. rewrite IH. reflexivity.
Qed.

Lemma lacks_chars c s :
  Str.lacks c s = true ->
  Forall (fun x => Ascii.eqb x c = false) (list_ascii_of_string s).
Proof.
  induction s as [|x s IH]; cbn [Str.lacks list_ascii_of_string]; [constructor|].
  intros H. apply andb_prop in H as [Hx Hs]. apply negb_true_iff in Hx.
  constructor; [exact Hx | exact (IH Hs)].
Qed.

(** A path that ends in a file name without separator does not end in a
    separator. *)
Lemma ends_with_sep_file dir file :
  file <> "" -> Str.lacks Path.sep file = true ->
  Path.ends_with_sep (dir +:+ file) = false.
Proof.
  intros Hsome Hfile. unfold Path.ends_with_sep.
  rewrite list_ascii_app, rev_app_distr.
  pose proof (lacks_chars _ _ Hfile) as Hchars.
  apply Forall_rev in Hchars.
  destruct (rev (list_ascii_of_string file)) as [|x back] eqn:Hrev.
  - destruct file; [congruence|]. cbn in Hrev.
    apply (f_equal length) in Hrev. rewrite length_app in Hrev. cbn in Hrev. lia.
  - cbn [app]. apply Forall_cons in Hchars as [Hx _]. exact Hx.
Qed.

Lemma push_plain_segment allow kept seg :
  seg <> "" -> seg <> "." -> seg <> ".." ->
  Path.push_segment allow kept seg = seg :: kept.
Proof.
  intros H0 H1 H2. unfold Path.push_segment.
  apply String.eqb_neq in H0, H1, H2. rewrite H0, H1, H2. reflexivity.
Qed.

Lemma normalize_string_file root file allow :
  file <> "" -> file <> "." -> file <> ".." ->
  Str.lacks Path.sep file = true ->
  exists pre,
    Path.normalize_string (root +:+ String Path.sep file) allow = pre +:+ file /\
    (pre = "" \/ exists d, pre = d +:+ "/").
Proof.
  intros H0 H1 H2 Hfile. unfold Path.normalize_string.
  rewrite split_app_sep, (split_lacking _ _ Hfile), fold_left_app.
  cbn [fold_left]. rewrite push_plain_segment by assumption.
  cbn [rev].
  destruct (rev (fold_left _ (Str.split Path.sep root) [])) as [|k ks].
  - exists "". split; [reflexivity | left; reflexivity].
  - rewrite join_snoc by discriminate.
    exists (Str.join "/" (k :: ks) +:+ "/"). split.
    + rewrite append_assoc_str. reflexivity.
    + right. eexists. reflexivity.
Qed.

(** Joining a directory and a plain file name gives a path whose last
    segment is the file name. *)
Lemma join_ends_in_file root file :
  root <> "" -> file <> "" -> file <> "." -> file <> ".." ->
  Str.lacks Path.sep file = true ->
  exists dir,
    Path.join [root; file] = dir +:+ file /\
    (dir = "" \/ exists d, dir = d +:+ "/").
Proof.
  intros Hroot H0 H1 H2 Hfile.
  unfold Path.join. rewrite !filter_cons_True, filter_nil
    by (cbn; (now destruct root) || now destruct file).
  change (Str.join "/" [root; file]) with (root +:+ String Path.sep file).
  unfold Path.normalize.
  destruct (root +:+ String Path.sep file) eqn:Hp;
    [destruct root; [congruence | discriminate Hp]|].
  rewrite <- Hp. clear Hp.
  assert (Htrail : Path.ends_with_sep (root +:+ String Path.sep file) = false).
  { change (String Path.sep file) with ("/" +:+ file).
    rewrite <- append_assoc_str. apply ends_with_sep_file; assumption. }
  rewrite Htrail.
  destruct (normalize_string_file root file
              (negb (Path.is_absolute (root +:+ String Path.sep file)))
              H0 H1 H2 Hfile) as (pre & -> & Hpre).
  destruct (pre +:+ file) eqn:Hbody;
    [destruct pre; [rewrite append_empty in Hbody; congruence
                   | discriminate Hbody]|].
  rewrite <- Hbody. clear Hbody.
  destruct (Path.is_absolute _).
  - exists ("/" +:+ pre). split; [rewrite append_assoc_str; reflexivity|].
    right. destruct Hpre as [->|[d ->]].
    + exists "". reflexivity.
    + exists ("/" +:+ d). rewrite append_assoc_str. reflexivity.
  - exists pre. split; [reflexivity | exact Hpre].
Qed.

Lemma dirname_truthy p : Str.truthy (Path.dirname p) = true.
Proof.
  unfold Path.dirname.
  destruct (list_ascii_of_string p) as [|first others]; [reflexivity|].
  destruct (Path.drop_while _ (Path.drop_while _ (rev others))) as [|x before].
  - destruct (Ascii.eqb first Path.sep); reflexivity.
  - destruct before; [destruct (Ascii.eqb first Path.sep)|]; reflexivity.
Qed.

Lemma join_truthy parts : Str.truthy (Path.join parts) = true.
Proof.
  unfold Path.join.
  destruct (filter _ parts); [reflexivity | apply normalize_truthy].
Qed.

Lemma truthy_not_empty s : Str.truthy s = true -> s <> "".
Proof. destruct s; [discriminate | discriminate]. Qed.

Lemma json_file_is_plain name :
  Str.lacks Path.sep name = true ->
  name +:+ ".json" <> "" /\ name +:+ ".json" <> "." /\
  name +:+ ".json" <> ".." /\
  Str.lacks Path.sep (name +:+ ".json") = true.
Proof.
  intros Hname.
  assert (Hlen : String.length (name +:+ ".json") = (String.length name + 5)%nat).
  { induction name as [|c name IH]; [reflexivity|].
    rewrite append_cons. cbn [String.length Str.lacks] in *.
    apply andb_prop in Hname as [_ Hname]. rewrite (IH Hname). reflexivity. }
  repeat split;
    try (intros Heq; rewrite Heq in Hlen; cbn in Hlen; lia).
  rewrite lacks_app, Hname. reflexivity.
Qed.

(** X16. Whenever [createDatabase] returns for a name without path separator,
    the last segment of the file path is [<name>.json]: the path is that file
    name, alone or behind a directory prefix ending in a separator. *)
Theorem createDatabase_file_name host p name w db w' :
  Str.lacks Path.sep name = true ->
  createDatabase host p name w = (Ok db, w') ->
  exists dir,
    filepath db = dir +:+ name +:+ ".json" /\
    (dir = "" \/ exists d, dir = d +:+ "/").
Proof.
  intros Hname Hrun.
  destruct (json_file_is_plain name Hname) as (H0 & H1 & H2 & Hfile).
  assert (Hroot : exists root,
            root <> "" /\ filepath db = Path.join [root; name +:+ ".json"]).
  { unfold createDatabase, bind, perform, this_env, ret in Hrun.
    destruct (has_TEST p).
    - destruct (outcome host (trace w) _); [discriminate|].
      injection Hrun as <- _. eexists. split; [|reflexivity].
      apply truthy_not_empty, join_truthy.
    - destruct (_env w) as [e|]; [|discriminate].
      injection Hrun as <- _. eexists. split; [|reflexivity].
      apply truthy_not_empty, dirname_truthy. }
  destruct Hroot as (root & Hroot & ->).
  apply join_ends_in_file; assumption.
Qed.

Lemma createDatabase_file_name_witness :
  exists dir,
    filepath {| filepath := "/home/u/.config/coc/memos.json" |}
      = dir +:+ "memos" +:+ ".json" /\
    (dir = "" \/ exists d, dir = d +:+ "/").
Proof.
  apply (createDatabase_file_name (Sample.quiet_host Sample.current_env)
           Sample.plain_process "memos" Sample.ready _ Sample.ready);
    [reflexivity | vm_compute; reflexivity].
Defined.

(** X17. Whenever the constructor returns and the configuration file name is a
    plain file name, the path handed to the configuration store has that
    name as its last segment. *)
Theorem userConfigFile_file_name VERSION CONFIG_FILE_NAME p ev ws :
  CONFIG_FILE_NAME <> "" -> CONFIG_FILE_NAME <> "." -> CONFIG_FILE_NAME <> ".." ->
  Str.lacks Path.sep CONFIG_FILE_NAME = true ->
  constructor VERSION CONFIG_FILE_NAME p ev = Ok ws ->
  exists dir,
    userConfigFile (configurations ws) = dir +:+ CONFIG_FILE_NAME /\
    (dir = "" \/ exists d, dir = d +:+ "/").
Proof.
  intros H0 H1 H2 Hplain Hnew.
  destruct (COC_VIMCONFIG p) as [home|] eqn:Hvar.
  - destruct (constructor_with_COC_VIMCONFIG VERSION CONFIG_FILE_NAME p ev home Hvar)
      as (ws' & Hnew' & Hfile).
    rewrite Hnew in Hnew'. injection Hnew' as <-. rewrite Hfile.
    apply join_ends_in_file; try assumption.
    apply truthy_not_empty, normalize_truthy.
  - unfold constructor in Hnew. rewrite Hvar in Hnew. discriminate Hnew.
Qed.

Lemma userConfigFile_file_name_witness :
  exists ws dir,
    constructor "0.0.80" "coc-settings.json" Sample.plain_process Sample.events
      = Ok ws /\
    userConfigFile (configurations ws) = dir +:+ "coc-settings.json" /\
    (dir = "" \/ exists d, dir = d +:+ "/").
Proof.
  destruct (constructor "0.0.80" "coc-settings.json" Sample.plain_process
              Sample.events) as [ws|] eqn:Hnew; [|discriminate Hnew].
  destruct (userConfigFile_file_name "0.0.80" "coc-settings.json"
              Sample.plain_process Sample.events ws
              ltac:(discriminate) ltac:(discriminate) ltac:(discriminate)
              eq_refl Hnew) as (dir & Hfile & Hdir).
  exists ws, dir. split; [reflexivity|]. split; [exact Hfile | exact Hdir].
Defined.
